(** * Streamlit_MiniNotebook: the editor-event parser and the Code holder

    A shallow embedding of [streamlit_notebook/notebook_imports.py]:
    the class [editor_output_parser] (deduplication of editor events by
    their [id]), the class [Code] (a text value written by the UI or by
    the backend) and the method [Editor.show] that composes both.

    Python objects are mutable; every method below takes the object's
    state and returns the new one.  A method that can raise returns a
    [result]. *)

From Stdlib Require Import ZArith String Bool.
From stdpp Require Import gmap strings.

Local Open Scope string_scope.

(** ** Python values *)

(** The scalar values a payload field can hold once the widget's JSON
    has been decoded: [None], booleans, integers and strings.  Floats
    and nested lists or dicts are left out. *)
Inductive PyVal : Type :=
  | PyNone
  | PyBool (b : bool)
  | PyInt (z : Z)
  | PyStr (s : string).

(** What is handed to the parser: a scalar, or a dict with string keys. *)
Inductive PyObj : Type :=
  | PyScalar (v : PyVal)
  | PyDict (d : gmap string PyVal).

Inductive PyExn : Type :=
  | AttributeError.

Inductive result (A : Type) : Type :=
  | Ok (a : A)
  | Raise (e : PyExn).

Arguments Ok {A} a.
Arguments Raise {A} e.

(** Python's [==]: [True == 1] and [False == 0] hold, values of
    otherwise different types are unequal. *)
Definition py_eq (a b : PyVal) : bool :=
  match a, b with
  | PyNone, PyNone => true
  | PyBool x, PyBool y => Bool.eqb x y
  | PyBool x, PyInt z => Z.eqb (Z.b2z x) z
  | PyInt z, PyBool x => Z.eqb z (Z.b2z x)
  | PyInt x, PyInt y => Z.eqb x y
  | PyStr x, PyStr y => String.eqb x y
  | _, _ => false
  end.

(** Python's [!=]. *)
Definition py_ne (a b : PyVal) : bool := negb (py_eq a b).

(** [x is None]. *)
Definition is_None (a : PyVal) : bool :=
  match a with
  | PyNone => true
  | _ => false
  end.

(** Truth value of an object, as tested by [if x:]. *)
Definition truthy (a : PyVal) : bool :=
  match a with
  | PyNone => false
  | PyBool b => b
  | PyInt z => negb (Z.eqb z 0)
  | PyStr s => negb (String.eqb s "")
  end.

(** [d.get(k, dflt)]. *)
Definition dict_get (d : gmap string PyVal) (k : string) (dflt : PyVal) : PyVal :=
  match d !! k with
  | Some v => v
  | None => dflt
  end.

(** ** class editor_output_parser *)

Module editor_output_parser.

Record t : Type := mk {
  last_id : PyVal;
  last_code : PyVal
}.

Definition __init__ (initial_code : PyVal) : t :=
  {| last_id := PyNone; last_code := initial_code |}.

(** [__call__(self, output)]: the returned pair [(event, text)] and
    the parser afterwards.  [output.get] on anything but a dict (or
    [None], tested first) raises [AttributeError]. *)
Definition __call__ (self : t) (output : PyObj) : result ((PyVal * PyVal) * t) :=
  match output with
  | PyScalar PyNone => Ok ((PyNone, last_code self), self)
  | PyScalar _ => Raise AttributeError
  | PyDict d =>
      let self1 := {| last_id := last_id self;
                      last_code := dict_get d "text" (last_code self) |} in
      let event := PyNone in
      let out_id := dict_get d "id" PyNone in
      let out_type := dict_get d "type" (PyStr "") in
      if negb (is_None out_id) && py_ne out_id (last_id self1) then
        let self2 := {| last_id := out_id; last_code := last_code self1 |} in
        if truthy out_type then
          Ok ((out_type, last_code self2), self2)
        else
          Ok ((event, last_code self2), self2)
      else
        Ok ((event, last_code self1), self1)
  end.

End editor_output_parser.

(** ** class Code *)

Module Code.

Record t : Type := mk {
  _value : PyVal;
  new_code_flag : bool
}.

Definition __init__ (value : PyVal) : t :=
  {| _value := value; new_code_flag := false |}.

Definition get_value (self : t) : PyVal := _value self.

Definition from_ui (self : t) (value : PyVal) : t :=
  if new_code_flag self then
    {| _value := _value self; new_code_flag := false |}
  else
    {| _value := value; new_code_flag := new_code_flag self |}.

Definition from_backend (self : t) (value : PyVal) : t :=
  {| _value := value; new_code_flag := true |}.

End Code.

(** ** class Editor *)

Module Editor.

Record t : Type := mk {
  code : Code.t;
  key : string;
  lang : string;
  min_lines : Z;
  max_lines : Z;
  event : PyVal;
  _parser : editor_output_parser.t
}.

(** [Editor(code, key, lang, min_lines, max_lines)].  [short_id] is
    the string [_short_id()] draws when [key] is [None] or empty. *)
Definition __init__ (short_id : string) (code : option Code.t)
    (key : option string) (lang : string) (min_lines max_lines : Z) : t :=
  let code1 :=
    match code with
    | Some c => c
    | None => Code.__init__ (PyStr "")
    end in
  let key1 :=
    match key with
    | Some k => if String.eqb k "" then short_id else k
    | None => short_id
    end in
  {| code := code1;
     key := key1;
     lang := lang;
     min_lines := min_lines;
     max_lines := max_lines;
     event := PyNone;
     _parser := editor_output_parser.__init__ (Code.get_value code1) |}.

(** [get_output(self, output)]: the component's stored state in the
    session [state] when the key is there, else [output]. *)
Definition get_output (self : t) (state : gmap string PyObj) (output : PyObj) : PyObj :=
  match state !! key self with
  | Some stored => stored
  | None => output
  end.

(** [show(self)]: [raw_output] is what [code_editor(...)] returned. *)
Definition show (self : t) (state : gmap string PyObj) (raw_output : PyObj) : result t :=
  let output := get_output self state raw_output in
  match editor_output_parser.__call__ (_parser self) output with
  | Raise e => Raise e
  | Ok ((event1, content), parser1) =>
      Ok {| code := Code.from_ui (code self) content;
            key := key self;
            lang := lang self;
            min_lines := min_lines self;
            max_lines := max_lines self;
            event := event1;
            _parser := parser1 |}
  end.

End Editor.

(** [editor.event in ("run", "submit")], the test of [show_code_mode]
    in [run_mini_notebook.py] that decides whether the cell is run. *)
Definition event_in_run_submit (event : PyVal) : bool :=
  py_eq event (PyStr "run") || py_eq event (PyStr "submit").

(** Feeding a parser the outputs of successive redraws; the pairs
    returned, oldest first, and the parser at the end. *)
Fixpoint deliveries (self : editor_output_parser.t) (outputs : list PyObj)
    : result (list (PyVal * PyVal) * editor_output_parser.t) :=
  match outputs with
  | [] => Ok ([], self)
  | output :: rest =>
      match editor_output_parser.__call__ self output with
      | Raise e => Raise e
      | Ok (r, self1) =>
          match deliveries self1 rest with
          | Raise e => Raise e
          | Ok (rs, self2) => Ok (r :: rs, self2)
          end
      end
  end.

(** The payloads of the scenarios. *)
Definition payload_a1 : gmap string PyVal :=
  <["id" := PyStr "a1"]> (<["type" := PyStr "run"]> (<["text" := PyStr "print(1)"]> ∅)).

Definition payload_null_id : gmap string PyVal :=
  <["id" := PyNone]> (<["type" := PyStr "run"]> (<["text" := PyStr "print(2)"]> ∅)).

Definition payload_empty_id : gmap string PyVal :=
  <["id" := PyStr ""]> (<["type" := PyStr "run"]> (<["text" := PyStr "print(3)"]> ∅)).

Definition payload_custom : gmap string PyVal :=
  <["id" := PyInt 7]> (<["type" := PyStr "format"]> ∅).

(** A run of [from_ui] calls on one [Code] object, oldest first. *)
Definition ui_writes (c : Code.t) (values : list PyVal) : Code.t :=
  fold_left Code.from_ui values c.

(** Successive [show] calls on one [Editor] object; redraw [k] sees the
    session [state] and the raw output of the [k]-th pair. *)
Fixpoint shows (ed : Editor.t) (redraws : list (gmap string PyObj * PyObj))
    : result Editor.t :=
  match redraws with
  | [] => Ok ed
  | (state, raw_output) :: rest =>
      match Editor.show ed state raw_output with
      | Raise e => Raise e
      | Ok ed1 => shows ed1 rest
      end
  end.

(** ** _short_id *)

(** [string.ascii_letters] and [string.digits]. *)
Definition ascii_letters : string :=
  "abcdefghijklmnopqrstuvwxyzABCDEFGHIJKLMNOPQRSTUVWXYZ".

Definition digits : string := "0123456789".

(** [random.choices(population, k=k)]: [k] draws with replacement.
    Draw [j] takes [population[floor(random() * n)]], an index below
    [n = len(population)]; [rand j] stands for the [j]-th random value
    and the index it gives is [rand j mod n].  An empty population
    raises in Python; the alphabet below is not empty. *)
Definition random_choices (rand : nat → nat) (population : list Ascii.ascii) (k : Z)
    : list Ascii.ascii :=
  map (λ j, nth (Nat.modulo (rand j) (length population)) population Ascii.zero)
      (seq 0 (Z.to_nat k)).

(** [_short_id(length)]. *)
Definition _short_id (rand : nat → nat) (length : Z) : string :=
  let alphabet := ascii_letters ++ digits in
  string_of_list_ascii (random_choices rand (list_ascii_of_string alphabet) length).

(** * run_mini_notebook.py *)

Definition max_lines : Z := 20.

Definition max_lines_markdown : Z := 25.

Definition ENABLE_AUTOSAVE : bool := true.

Definition AUTOLOAD_ON_START : bool := true.

Definition CODE_AUTOSAVE_PATH : string := ".mini_notebook_code.py".

Definition MARKDOWN_AUTOSAVE_PATH : string := ".mini_notebook_notes.md".

(** ** Files *)

(** What a path of the working directory names: a text file the
    process can read, which it may or may not write, or something
    [open] fails on (a directory, a file the process may not open).  A
    path that names nothing is not in the map; a file can be created
    there. *)
Inductive fnode : Type :=
  | RegularFile (content : string) (writable : bool)
  | Unopenable.

Inductive IOExn : Type :=
  | OSError
  | TypeError.

(** [os.path.exists(path)]. *)
Definition path_exists (fs : gmap string fnode) (path : string) : bool :=
  match fs !! path with
  | Some _ => true
  | None => false
  end.

(** [open(path, "r")] and [f.read()]; [None] when either raises. *)
Definition read_text (fs : gmap string fnode) (path : string) : option string :=
  match fs !! path with
  | Some (RegularFile content _) => Some content
  | _ => None
  end.

(** [open(path, "w")]: the file is created or emptied; [None] when it
    raises. *)
Definition open_w (fs : gmap string fnode) (path : string) : option (gmap string fnode) :=
  match fs !! path with
  | Some (RegularFile _ true) | None => Some (<[path := RegularFile "" true]> fs)
  | Some (RegularFile _ false) | Some Unopenable => None
  end.

(** ** What is put on the page *)

Inductive Element : Type :=
  | title (body : string)
  | markdown (body : PyVal)
  | code_block (body : string)
  | error (body : string)
  | info (body : string)
  | caption (body : string)
  | warning (body : string)
  | autosave_toast (e : IOExn)
  | autosave_warning (e : IOExn)
  | html_box (max_height : Z) (inner : string) (height : Z).

(** ** Autosave helpers *)

(** [_autosave(path, text)] on the files [fs]: the files afterwards and
    the notice shown when saving failed.  [f.write] of a value that is
    not a string raises after [open] has emptied the file.
    [toast_works] tells whether [st.toast] returns; [st.warning] is
    called when it raises. *)
Definition _autosave (toast_works : bool) (path : string) (text : PyVal)
    (fs : gmap string fnode) : gmap string fnode * list Element :=
  if negb ENABLE_AUTOSAVE || String.eqb path "" then (fs, [])
  else
    let failed (e : IOExn) :=
      if toast_works then [autosave_toast e] else [autosave_warning e] in
    match open_w fs path with
    | None => (fs, failed OSError)
    | Some fs1 =>
        match text with
        | PyStr s => (<[path := RegularFile s true]> fs1, [])
        | _ => (fs1, failed TypeError)
        end
    end.

(** [_autoload_if_needed(path, default_text)]. *)
Definition _autoload_if_needed (path default_text : string)
    (fs : gmap string fnode) : string :=
  if AUTOLOAD_ON_START && negb (String.eqb path "") && path_exists fs path then
    match read_text fs path with
    | Some content => content
    | None => default_text
    end
  else default_text.

(** ** Running a cell *)

(** How [exec(compile(src, ...), ns)] ended. *)
Inductive Raised : Type :=
  | NoRaise
  | RaisedException (traceback : string)
  | RaisedBaseException.

(** What one [exec] did: the namespace afterwards (the dict is changed
    in place, also when the cell raises), what it wrote to stdout and
    to stderr, and how it ended.  [traceback] is the text of
    [traceback.format_exc()]. *)
Record ExecResult (NS : Type) : Type := mkExecResult {
  ns_after : NS;
  out : string;
  err : string;
  raised : Raised
}.

Arguments mkExecResult {NS} ns_after out err raised.
Arguments ns_after {NS} e.
Arguments out {NS} e.
Arguments err {NS} e.
Arguments raised {NS} e.

(** What stops a redraw: an exception of the page's own code, or a
    [BaseException] (an exit, an interrupt) of the executed cell. *)
Inductive Abort : Type :=
  | AbortPy (e : PyExn)
  | AbortCell.

(** A redraw that completed, or was stopped; the session and the files
    are changed in place, so the state reached is there in both cases. *)
Inductive app_result (A : Type) : Type :=
  | Completed (a : A)
  | Aborted (e : Abort) (a : A).

Arguments Completed {A} a.
Arguments Aborted {A} e a.

Section RunMiniNotebook.

(** The namespace dicts of executed cells, the empty one, and [exec]
    with stdout and stderr redirected. *)
Variable NS : Type.
Variable empty_ns : NS.
Variable py_exec : PyVal → NS → ExecResult NS.

(** Whether [st.toast] returns. *)
Variable toast_works : bool.

(** [_md_to_html], [None] when the [markdown] package is missing. *)
Variable _md_to_html : option (PyVal → string).

(** [st.session_state]: the values the widgets keep under their keys,
    and the attributes this file sets, [None] while not set. *)
Record Session : Type := mkSession {
  widgets : gmap string PyObj;
  mini_code_code : option Code.t;
  mini_code_ns : option NS;
  mini_code_stdout : option string;
  mini_code_stderr : option string;
  mini_code_exception : option string;
  mini_md_code : option Code.t;
  mini_md_last_run : option PyVal
}.

Definition set_mini_code_code (v : Code.t) (st : Session) : Session :=
  mkSession (widgets st) (Some v) (mini_code_ns st) (mini_code_stdout st)
            (mini_code_stderr st) (mini_code_exception st) (mini_md_code st)
            (mini_md_last_run st).

Definition set_mini_code_ns (v : NS) (st : Session) : Session :=
  mkSession (widgets st) (mini_code_code st) (Some v) (mini_code_stdout st)
            (mini_code_stderr st) (mini_code_exception st) (mini_md_code st)
            (mini_md_last_run st).

Definition set_mini_code_stdout (v : string) (st : Session) : Session :=
  mkSession (widgets st) (mini_code_code st) (mini_code_ns st) (Some v)
            (mini_code_stderr st) (mini_code_exception st) (mini_md_code st)
            (mini_md_last_run st).

Definition set_mini_code_stderr (v : string) (st : Session) : Session :=
  mkSession (widgets st) (mini_code_code st) (mini_code_ns st) (mini_code_stdout st)
            (Some v) (mini_code_exception st) (mini_md_code st)
            (mini_md_last_run st).

Definition set_mini_code_exception (v : string) (st : Session) : Session :=
  mkSession (widgets st) (mini_code_code st) (mini_code_ns st) (mini_code_stdout st)
            (mini_code_stderr st) (Some v) (mini_md_code st)
            (mini_md_last_run st).

Definition set_mini_md_code (v : Code.t) (st : Session) : Session :=
  mkSession (widgets st) (mini_code_code st) (mini_code_ns st) (mini_code_stdout st)
            (mini_code_stderr st) (mini_code_exception st) (Some v)
            (mini_md_last_run st).

Definition set_mini_md_last_run (v : PyVal) (st : Session) : Session :=
  mkSession (widgets st) (mini_code_code st) (mini_code_ns st) (mini_code_stdout st)
            (mini_code_stderr st) (mini_code_exception st) (mini_md_code st)
            (Some v).

(** The session, the files and the page drawn so far, oldest element
    first. *)
Record World : Type := mkWorld {
  session : Session;
  files : gmap string fnode;
  screen : list Element
}.

Definition draw (els : list Element) (w : World) : World :=
  mkWorld (session w) (files w) (screen w ++ els)%list.

Definition with_session (st : Session) (w : World) : World :=
  mkWorld st (files w) (screen w).

(** [_autosave] in a redraw: the notice goes on the page. *)
Definition autosave_in (path : string) (text : PyVal) (w : World) : World :=
  let '(fs1, notices) := _autosave toast_works path text (files w) in
  mkWorld (session w) fs1 (screen w ++ notices)%list.

(** [_ensure_code_state()]. *)
Definition _ensure_code_state (fs : gmap string fnode) (st : Session) : Session :=
  let st1 :=
    match mini_code_code st with
    | None =>
        let initial := _autoload_if_needed CODE_AUTOSAVE_PATH
                         "print('Hello from mini notebook!')" fs in
        set_mini_code_code (Code.__init__ (PyStr initial)) st
    | Some _ => st
    end in
  let st2 :=
    match mini_code_ns st1 with
    | None => set_mini_code_ns empty_ns st1
    | Some _ => st1
    end in
  let st3 :=
    match mini_code_stdout st2 with
    | None => set_mini_code_stdout "" st2
    | Some _ => st2
    end in
  let st4 :=
    match mini_code_stderr st3 with
    | None => set_mini_code_stderr "" st3
    | Some _ => st3
    end in
  match mini_code_exception st4 with
  | None => set_mini_code_exception "" st4
  | Some _ => st4
  end.

(** [_run_code()].  Reading an attribute the session does not have
    raises [AttributeError]. *)
Definition _run_code (w : World) : app_result World :=
  match mini_code_code (session w) with
  | None => Aborted (AbortPy AttributeError) w
  | Some code_obj =>
      let src := Code.get_value code_obj in
      match mini_code_ns (session w) with
      | None => Aborted (AbortPy AttributeError) w
      | Some ns =>
          let r := py_exec src ns in
          let w1 := with_session (set_mini_code_ns (ns_after r) (session w)) w in
          let finish (exception : string) :=
            let st2 := set_mini_code_exception exception (session w1) in
            let st3 := set_mini_code_stdout (out r) st2 in
            let st4 := set_mini_code_stderr (err r) st3 in
            Completed (autosave_in CODE_AUTOSAVE_PATH src (with_session st4 w1)) in
          match raised r with
          | NoRaise => finish ""
          | RaisedException traceback => finish traceback
          | RaisedBaseException => Aborted AbortCell w1
          end
      end
  end.

(** The output area of [show_code_mode]: the three attributes are read
    in the order of the source, [or] stopping at the first true one. *)
Definition code_output_area (w : World) : app_result World :=
  let st := session w in
  match mini_code_stdout st with
  | None => Aborted (AbortPy AttributeError) w
  | Some stdout =>
      let any_output : option bool :=
        if negb (String.eqb stdout "") then Some true
        else
          match mini_code_stderr st with
          | None => None
          | Some stderr =>
              if negb (String.eqb stderr "") then Some true
              else
                match mini_code_exception st with
                | None => None
                | Some exception => Some (negb (String.eqb exception ""))
                end
          end in
      match any_output with
      | None => Aborted (AbortPy AttributeError) w
      | Some false =>
          Completed
            (draw [info "No output yet – write some code and press **Run** or **Ctrl+Enter**."] w)
      | Some true =>
          let w1 := draw [markdown (PyStr "#### Output")] w in
          let w2 := if negb (String.eqb stdout "") then draw [code_block stdout] w1 else w1 in
          match mini_code_stderr st with
          | None => Aborted (AbortPy AttributeError) w2
          | Some stderr =>
              let w3 :=
                if negb (String.eqb stderr "") then draw [code_block stderr] w2 else w2 in
              match mini_code_exception st with
              | None => Aborted (AbortPy AttributeError) w3
              | Some exception =>
                  Completed
                    (if negb (String.eqb exception "") then draw [error exception] w3
                     else w3)
              end
          end
      end
  end.

(** [show_code_mode()]; [raw_output] is what [code_editor] returns in
    this redraw.  The [Code] of the session is the object the editor
    writes to. *)
Definition show_code_mode (raw_output : PyObj) (w : World) : app_result World :=
  let w1 := draw [title "Mini notebook – Code cell"] w in
  let w2 := with_session (_ensure_code_state (files w1) (session w1)) w1 in
  match mini_code_code (session w2) with
  | None => Aborted (AbortPy AttributeError) w2
  | Some code_obj =>
      let editor := Editor.__init__ "" (Some code_obj) (Some "mini_code_editor")
                                    "python" max_lines max_lines in
      match Editor.show editor (widgets (session w2)) raw_output with
      | Raise e => Aborted (AbortPy e) w2
      | Ok editor1 =>
          let w3 := with_session (set_mini_code_code (Editor.code editor1) (session w2)) w2 in
          let ran :=
            if event_in_run_submit (Editor.event editor1) then _run_code w3
            else Completed w3 in
          match ran with
          | Aborted e w4 => Aborted e w4
          | Completed w4 => code_output_area w4
          end
      end
  end.

(** [_ensure_markdown_state()]. *)
Definition _ensure_markdown_state (fs : gmap string fnode) (st : Session) : Session :=
  let st1 :=
    match mini_md_code st with
    | None =>
        let initial := _autoload_if_needed MARKDOWN_AUTOSAVE_PATH
                         "# Markdown notepad

Start typing..." fs in
        set_mini_md_code (Code.__init__ (PyStr initial)) st
    | Some _ => st
    end in
  match mini_md_last_run st1, mini_md_code st1 with
  | None, Some c => set_mini_md_last_run (Code.get_value c) st1
  | _, _ => st1
  end.

(** The preview column of [show_markdown_mode]. *)
Definition markdown_preview (w : World) : app_result World :=
  match mini_md_last_run (session w) with
  | None => Aborted (AbortPy AttributeError) w
  | Some text =>
      let line_height_px := 24%Z in
      let lines := if Z.eqb max_lines_markdown 0 then 15%Z else max_lines_markdown in
      let preview_height := (lines * line_height_px)%Z in
      match _md_to_html with
      | Some convert =>
          Completed (draw [html_box preview_height (convert text) (preview_height + 40)%Z] w)
      | None =>
          Completed
            (draw [warning "Optional dependency `markdown` is not installed – preview will grow with content instead of scrolling.

Install it with: `pip install markdown` to enable the scroll box.";
                   markdown text] w)
      end
  end.

(** [show_markdown_mode()]. *)
Definition show_markdown_mode (raw_output : PyObj) (w : World) : app_result World :=
  let w1 := draw [title "Mini notebook – Markdown notepad"] w in
  let w2 := with_session (_ensure_markdown_state (files w1) (session w1)) w1 in
  match mini_md_code (session w2) with
  | None => Aborted (AbortPy AttributeError) w2
  | Some code_obj =>
      let editor := Editor.__init__ "" (Some code_obj) (Some "mini_markdown_editor")
                                    "markdown" max_lines_markdown max_lines_markdown in
      match Editor.show editor (widgets (session w2)) raw_output with
      | Raise e => Aborted (AbortPy e) w2
      | Ok editor1 =>
          let code_obj1 := Editor.code editor1 in
          let w3 := with_session (set_mini_md_code code_obj1 (session w2)) w2 in
          let w4 :=
            if event_in_run_submit (Editor.event editor1) then
              let last_run := Code.get_value code_obj1 in
              autosave_in MARKDOWN_AUTOSAVE_PATH last_run
                (with_session (set_mini_md_last_run last_run (session w3)) w3)
            else w3 in
          markdown_preview
            (draw [caption "Press **Run** or **Ctrl+Enter** to update the preview."] w4)
      end
  end.

(** [main()]; [choice] is what the sidebar radio returns. *)
Definition main (choice : PyVal) (raw_output : PyObj) (w : World) : app_result World :=
  if py_eq choice (PyStr "Code cell") then show_code_mode raw_output w
  else show_markdown_mode raw_output w.

End RunMiniNotebook.

Arguments mkSession {NS}.
Arguments widgets {NS}.
Arguments mini_code_code {NS}.
Arguments mini_code_ns {NS}.
Arguments mini_code_stdout {NS}.
Arguments mini_code_stderr {NS}.
Arguments mini_code_exception {NS}.
Arguments mini_md_code {NS}.
Arguments mini_md_last_run {NS}.
Arguments set_mini_code_code {NS}.
Arguments set_mini_code_ns {NS}.
Arguments set_mini_code_stdout {NS}.
Arguments set_mini_code_stderr {NS}.
Arguments set_mini_code_exception {NS}.
Arguments set_mini_md_code {NS}.
Arguments set_mini_md_last_run {NS}.
Arguments mkWorld {NS}.
Arguments session {NS}.
Arguments files {NS}.
Arguments screen {NS}.
Arguments draw {NS}.
Arguments with_session {NS}.
Arguments autosave_in {NS}.
Arguments _ensure_code_state {NS}.
Arguments _run_code {NS}.
Arguments code_output_area {NS}.
Arguments show_code_mode {NS}.
Arguments _ensure_markdown_state {NS}.
Arguments markdown_preview {NS}.
Arguments show_markdown_mode {NS}.
Arguments main {NS}.

(** The traceback [_run_code] stores: none after a run that ended
    without exception. *)
Definition stored_exception (r : Raised) : string :=
  match r with
  | RaisedException traceback => traceback
  | _ => ""
  end.


(** * Properties *)

Import editor_output_parser.

(** ** Python equality and truth *)

Lemma py_eq_refl (a : PyVal) : py_eq a a = true.
Proof.
  destruct a as [|b|z|s]; simpl.
  - reflexivity.
  - apply Bool.eqb_reflx.
  - apply Z.eqb_refl.
  - apply String.eqb_refl.
Qed.

Lemma py_ne_refl (a : PyVal) : py_ne a a = false.
Proof. unfold py_ne. now rewrite py_eq_refl. Qed.

Lemma py_eq_None_r (a : PyVal) : py_eq a PyNone = is_None a.
Proof. now destruct a. Qed.

Lemma is_None_false (a : PyVal) : a ≠ PyNone → is_None a = false.
Proof. destruct a; simpl; congruence. Qed.

Lemma is_None_true (a : PyVal) : is_None a = true → a = PyNone.
Proof. destruct a; simpl; congruence. Qed.

Lemma py_ne_None_r (a : PyVal) : a ≠ PyNone → py_ne a PyNone = true.
Proof. intros H. unfold py_ne. now rewrite py_eq_None_r, is_None_false. Qed.

Lemma truthy_PyStr (s : string) : s ≠ "" → truthy (PyStr s) = true.
Proof.
  intros H. simpl. apply negb_true_iff. now apply String.eqb_neq.
Qed.

(** [py_eq] on two strings is equality of the strings. *)
Lemma py_eq_PyStr (s1 s2 : string) : py_eq (PyStr s1) (PyStr s2) = true ↔ s1 = s2.
Proof. simpl. apply String.eqb_eq. Qed.

(** Two ids that are strings differ for [!=] exactly when they are
    different strings. *)
Lemma py_ne_PyStr (s1 s2 : string) : py_ne (PyStr s1) (PyStr s2) = true ↔ s1 ≠ s2.
Proof. unfold py_ne. simpl. rewrite negb_true_iff. apply String.eqb_neq. Qed.

(** ** The two branches of [__call__] on a dict *)

Lemma dict_get_Some (d : gmap string PyVal) k v dflt :
  d !! k = Some v → dict_get d k dflt = v.
Proof. intros H. unfold dict_get. now rewrite H. Qed.

Lemma dict_get_None (d : gmap string PyVal) k dflt :
  d !! k = None → dict_get d k dflt = dflt.
Proof. intros H. unfold dict_get. now rewrite H. Qed.

(** A fresh id: the id is stored, and a truthy type is the event. *)
Lemma call_fresh_id (self : editor_output_parser.t) (d : gmap string PyVal) (i : PyVal) :
  d !! "id" = Some i → i ≠ PyNone → py_ne i (last_id self) = true →
  __call__ self (PyDict d) =
    Ok ((if truthy (dict_get d "type" (PyStr "")) then dict_get d "type" (PyStr "") else PyNone,
         dict_get d "text" (last_code self)),
        {| last_id := i; last_code := dict_get d "text" (last_code self) |}).
Proof.
  intros Hid Hnone Hne. unfold __call__. cbn [last_id last_code].
  rewrite (dict_get_Some _ _ _ _ Hid), (is_None_false _ Hnone), Hne.
  cbn [negb andb]. now destruct (truthy _).
Qed.

(** No id, an id that is [None], or the stored id: no event and the
    stored id stays. *)
Lemma call_no_fresh_id (self : editor_output_parser.t) (d : gmap string PyVal) :
  is_None (dict_get d "id" PyNone) = true ∨
  py_eq (dict_get d "id" PyNone) (last_id self) = true →
  __call__ self (PyDict d) =
    Ok ((PyNone, dict_get d "text" (last_code self)),
        {| last_id := last_id self; last_code := dict_get d "text" (last_code self) |}).
Proof.
  intros H. unfold __call__, py_ne. cbn [last_id last_code].
  destruct H as [H|H]; rewrite H; cbn [negb andb]; [reflexivity|].
  now rewrite andb_false_r.
Qed.

(** [__call__] on a dict always returns. *)
Lemma call_dict_returns (self : editor_output_parser.t) (d : gmap string PyVal) :
  ∃ r self1, __call__ self (PyDict d) = Ok (r, self1).
Proof.
  unfold __call__.
  destruct (negb _ && _); [destruct (truthy _)|]; eauto.
Qed.

(** Re-delivering a payload whose id is the stored one changes nothing
    as soon as its text has been taken. *)
Lemma call_same_id_fixpoint (d : gmap string PyVal) (i text0 : PyVal) :
  d !! "id" = Some i →
  let text := dict_get d "text" text0 in
  __call__ {| last_id := i; last_code := text |} (PyDict d) =
    Ok ((PyNone, text), {| last_id := i; last_code := text |}).
Proof.
  intros Hid text.
  rewrite call_no_fresh_id; cbn [last_id last_code].
  - assert (dict_get d "text" text = text) as ->; [|reflexivity].
    unfold text, dict_get. now destruct (d !! "text").
  - right. rewrite (dict_get_Some _ _ _ _ Hid). apply py_eq_refl.
Qed.

Lemma deliveries_same_id (d : gmap string PyVal) (i text0 : PyVal) (n : nat) :
  d !! "id" = Some i →
  let text := dict_get d "text" text0 in
  deliveries {| last_id := i; last_code := text |} (replicate n (PyDict d)) =
    Ok (replicate n (PyNone, text), {| last_id := i; last_code := text |}).
Proof.
  intros Hid text. induction n as [|n IH]; [reflexivity|].
  cbn [replicate deliveries].
  unfold text at 1. rewrite (call_same_id_fixpoint d i text0 Hid).
  fold text. now rewrite IH.
Qed.

(** ** The claims *)

(** C1: a payload whose id is present (not [None]), differs ([!=])
    from the stored [last_id] and whose type is a non-empty string makes
    [__call__] return that type as the event; delivering the identical
    payload again returns no event and the same text, and over any
    number [S n] of successive identical deliveries the event is
    returned once, by the first. *)
Theorem C1_event_once (self : editor_output_parser.t) (d : gmap string PyVal) (i : PyVal) (s : string) (n : nat) :
  d !! "id" = Some i → i ≠ PyNone → py_ne i (last_id self) = true →
  d !! "type" = Some (PyStr s) → s ≠ "" →
  let text := dict_get d "text" (last_code self) in
  let self1 := {| last_id := i; last_code := text |} in
  __call__ self (PyDict d) = Ok ((PyStr s, text), self1) ∧
  __call__ self1 (PyDict d) = Ok ((PyNone, text), self1) ∧
  deliveries self (replicate (S n) (PyDict d)) =
    Ok ((PyStr s, text) :: replicate n (PyNone, text), self1).
Proof.
  intros Hid Hnone Hne Hty Hs text self1.
  assert (__call__ self (PyDict d) = Ok ((PyStr s, text), self1)) as Hfirst.
  { rewrite (call_fresh_id self d i Hid Hnone Hne).
    rewrite (dict_get_Some _ _ _ _ Hty), (truthy_PyStr s Hs). reflexivity. }
  split; [exact Hfirst|]. split.
  - apply (call_same_id_fixpoint d i (last_code self) Hid).
  - cbn [replicate deliveries]. rewrite Hfirst.
    unfold self1, text.
    now rewrite (deliveries_same_id d i (last_code self) n Hid).
Qed.

(** The scenario of the specification: the payload
    [{id: "a1", type: "run", text: "print(1)"}] on a new parser, twice. *)
Lemma C1_event_once_witness :
  let self1 := {| last_id := PyStr "a1"; last_code := PyStr "print(1)" |} in
  __call__ (__init__ (PyStr "")) (PyDict payload_a1)
    = Ok ((PyStr "run", PyStr "print(1)"), self1) ∧
  __call__ self1 (PyDict payload_a1) = Ok ((PyNone, PyStr "print(1)"), self1) ∧
  deliveries (__init__ (PyStr "")) (replicate 3 (PyDict payload_a1))
    = Ok ([(PyStr "run", PyStr "print(1)"); (PyNone, PyStr "print(1)");
           (PyNone, PyStr "print(1)")], self1).
Proof.
  apply (C1_event_once (__init__ (PyStr "")) payload_a1 (PyStr "a1") "run" 2).
  - reflexivity.
  - discriminate.
  - reflexivity.
  - reflexivity.
  - discriminate.
Defined.

(** C2: after [from_backend X], the next [from_ui Y] leaves the value
    [X] and clears [new_code_flag], and the [from_ui Z] after that sets
    the value [Z]; whenever the flag is set, the next [from_ui] is
    dropped, the flag is cleared, and the [from_ui] after it is taken. *)
Theorem C2_one_stale_echo (c : Code.t) (X Y Z v : PyVal) :
  let c1 := Code.from_backend c X in
  let c2 := Code.from_ui c1 Y in
  let c3 := Code.from_ui c2 Z in
  (Code.get_value c1 = X ∧ Code.new_code_flag c1 = true) ∧
  (Code.get_value c2 = X ∧ Code.new_code_flag c2 = false) ∧
  (Code.get_value c3 = Z ∧ Code.new_code_flag c3 = false) ∧
  Code.from_ui {| Code._value := v; Code.new_code_flag := true |} Y
    = {| Code._value := v; Code.new_code_flag := false |} ∧
  Code.from_ui (Code.from_ui {| Code._value := v; Code.new_code_flag := true |} Y) Z
    = {| Code._value := Z; Code.new_code_flag := false |}.
Proof. cbv zeta. repeat split. Qed.

(** C4: [__call__(None)] returns [(None, last_code)] and leaves the
    parser as it was, whatever its state. *)
Theorem C4_None_is_noop (self : editor_output_parser.t) :
  __call__ self (PyScalar PyNone) = Ok ((PyNone, last_code self), self).
Proof. reflexivity. Qed.

(** C3, as stated, fails: the id field of [payload_null_id] exists and
    holds [None], a false value that differs from the stored id
    ["a1"], and the type is ["run"]; [__call__] returns no event and
    keeps ["a1"]. *)
Lemma C3_null_id_counterexample :
  let self := {| last_id := PyStr "a1"; last_code := PyStr "print(1)" |} in
  payload_null_id !! "id" = Some PyNone ∧
  truthy PyNone = false ∧
  py_ne PyNone (last_id self) = true ∧
  payload_null_id !! "type" = Some (PyStr "run") ∧
  __call__ self (PyDict payload_null_id)
    = Ok ((PyNone, PyStr "print(2)"),
          {| last_id := PyStr "a1"; last_code := PyStr "print(2)" |}).
Proof. cbv zeta. repeat split. Qed.

(** C3, amended: an id field that holds a false value other than
    [None] (the empty string, zero, [False]) is treated as present: when
    it differs from [last_id] and the type is a non-empty string, the
    type is returned as the event and the id is stored.  A payload with
    no id field and a payload whose id field holds [None] both return
    no event and leave [last_id] as it was. *)
Theorem C3_false_id_is_present (self : editor_output_parser.t)
    (d : gmap string PyVal) (s : string) :
  d !! "type" = Some (PyStr s) → s ≠ "" →
  let text := dict_get d "text" (last_code self) in
  (∀ i, d !! "id" = Some i → truthy i = false → i ≠ PyNone →
        py_ne i (last_id self) = true →
        __call__ self (PyDict d)
          = Ok ((PyStr s, text), {| last_id := i; last_code := text |})) ∧
  (d !! "id" = None ∨ d !! "id" = Some PyNone →
        __call__ self (PyDict d)
          = Ok ((PyNone, text), {| last_id := last_id self; last_code := text |})).
Proof.
  intros Hty Hs text. split.
  - intros i Hid _ Hnone Hne.
    rewrite (call_fresh_id self d i Hid Hnone Hne).
    now rewrite (dict_get_Some _ _ _ _ Hty), (truthy_PyStr s Hs).
  - intros Hid. apply call_no_fresh_id. left.
    unfold dict_get. now destruct Hid as [-> | ->].
Qed.

(** An empty-string id on a new parser, and the [None] id after ["a1"]. *)
Lemma C3_false_id_is_present_witness :
  __call__ (__init__ (PyStr "")) (PyDict payload_empty_id)
    = Ok ((PyStr "run", PyStr "print(3)"),
          {| last_id := PyStr ""; last_code := PyStr "print(3)" |}) ∧
  __call__ {| last_id := PyStr "a1"; last_code := PyStr "print(1)" |}
           (PyDict payload_null_id)
    = Ok ((PyNone, PyStr "print(2)"),
          {| last_id := PyStr "a1"; last_code := PyStr "print(2)" |}).
Proof.
  split.
  - apply (proj1 (C3_false_id_is_present (__init__ (PyStr "")) payload_empty_id "run"
                    ltac:(reflexivity) ltac:(discriminate)) (PyStr ""));
      [reflexivity | reflexivity | discriminate | reflexivity].
  - apply (proj2 (C3_false_id_is_present
                    {| last_id := PyStr "a1"; last_code := PyStr "print(1)" |}
                    payload_null_id "run" ltac:(reflexivity) ltac:(discriminate))).
    right. reflexivity.
Defined.

(** Zero and [False] as ids are taken the same way. *)
Example zero_id_emits :
  __call__ (__init__ (PyStr "")) (PyDict (<["id" := PyInt 0]> payload_a1))
    = Ok ((PyStr "run", PyStr "print(1)"),
          {| last_id := PyInt 0; last_code := PyStr "print(1)" |}).
Proof. reflexivity. Qed.

Example False_id_emits :
  __call__ (__init__ (PyStr "")) (PyDict (<["id" := PyBool false]> payload_a1))
    = Ok ((PyStr "run", PyStr "print(1)"),
          {| last_id := PyBool false; last_code := PyStr "print(1)" |}).
Proof. reflexivity. Qed.

(** C5: on every dict payload [last_code] becomes the payload's text
    when the text field is there and stays when it is not, and that is
    the text returned, whatever the event; in particular a payload
    carrying the stored id [i] again still updates the text. *)
Theorem C5_text_always_updated (self : editor_output_parser.t)
    (d : gmap string PyVal) (i : PyVal) :
  let text := match d !! "text" with
              | Some v => v
              | None => last_code self
              end in
  (∃ ev self1, __call__ self (PyDict d) = Ok ((ev, text), self1) ∧
               last_code self1 = text) ∧
  __call__ {| last_id := i; last_code := last_code self |} (PyDict (<["id" := i]> d))
    = Ok ((PyNone, text), {| last_id := i; last_code := text |}).
Proof.
  intros text. split.
  - unfold __call__. fold (dict_get d "text" (last_code self)). fold text.
    cbn [last_id last_code].
    destruct (negb _ && _); [destruct (truthy _)|]; eauto.
  - rewrite call_no_fresh_id; cbn [last_id last_code].
    + unfold dict_get. rewrite lookup_insert_ne by discriminate. reflexivity.
    + right. unfold dict_get. rewrite lookup_insert_eq. apply py_eq_refl.
Qed.

(** C6: [__call__] changes [last_id] only when the payload carries an
    id that is not [None] and differs from the stored one, and then
    stores that id; [None] as payload, a payload without id field and
    a payload whose id equals the stored one leave [last_id] alone. *)
Theorem C6_last_id_invariant (self : editor_output_parser.t) (d : gmap string PyVal) :
  (∃ r, __call__ self (PyScalar PyNone) = Ok (r, self)) ∧
  ∃ r self1, __call__ self (PyDict d) = Ok (r, self1) ∧
    (last_id self1 ≠ last_id self →
       ∃ i, d !! "id" = Some i ∧ i ≠ PyNone ∧
            py_ne i (last_id self) = true ∧ last_id self1 = i) ∧
    (d !! "id" = None → last_id self1 = last_id self) ∧
    (d !! "id" = Some (last_id self) → last_id self1 = last_id self) ∧
    (∀ i, d !! "id" = Some i → py_eq i (last_id self) = true →
          last_id self1 = last_id self).
Proof.
  split; [eexists; reflexivity|].
  destruct (d !! "id") as [i|] eqn:Hid.
  - destruct (is_None i) eqn:Hnone.
    + eexists _, _. split.
      * apply call_no_fresh_id. left.
        now rewrite (dict_get_Some _ _ _ _ Hid).
      * cbn [last_id]. repeat split; try tauto; congruence.
    + destruct (py_eq i (last_id self)) eqn:Heq.
      * eexists _, _. split.
        -- apply call_no_fresh_id. right.
           now rewrite (dict_get_Some _ _ _ _ Hid).
        -- cbn [last_id]. repeat split; try tauto; congruence.
      * assert (i ≠ PyNone) as Hi by (intros ->; discriminate).
        assert (py_ne i (last_id self) = true) as Hne
          by (unfold py_ne; now rewrite Heq).
        eexists _, _. split; [apply (call_fresh_id self d i Hid Hi Hne)|].
        cbn [last_id]. repeat split.
        -- intros _. exists i. auto.
        -- discriminate.
        -- intros [= ->]. now rewrite py_eq_refl in Heq.
        -- intros j [= <-]. congruence.
  - eexists _, _. split.
    + apply call_no_fresh_id. left. now rewrite (dict_get_None _ _ _ Hid).
    + cbn [last_id]. repeat split; try tauto; try discriminate.
Qed.

(** C7: the type of a payload with a fresh id is returned as it is,
    whatever non-empty string it is; [Editor.show] stores it in
    [event], and only the caller's [event in ("run", "submit")] tells
    the two known strings from the others. *)
Theorem C7_event_passed_through (ed : Editor.t) (state : gmap string PyObj)
    (raw : PyObj) (d : gmap string PyVal) (i : PyVal) (s : string) :
  Editor.get_output ed state raw = PyDict d →
  d !! "id" = Some i → i ≠ PyNone →
  py_ne i (last_id (Editor._parser ed)) = true →
  d !! "type" = Some (PyStr s) → s ≠ "" →
  (∃ text self1,
     __call__ (Editor._parser ed) (PyDict d) = Ok ((PyStr s, text), self1)) ∧
  (∃ ed1, Editor.show ed state raw = Ok ed1 ∧ Editor.event ed1 = PyStr s) ∧
  (event_in_run_submit (PyStr s) = true ↔ s = "run" ∨ s = "submit").
Proof.
  intros Hout Hid Hnone Hne Hty Hs.
  pose proof (call_fresh_id _ d i Hid Hnone Hne) as Hcall.
  rewrite (dict_get_Some _ _ _ _ Hty), (truthy_PyStr s Hs) in Hcall.
  split; [eauto|]. split.
  - unfold Editor.show. rewrite Hout, Hcall. eexists. split; reflexivity.
  - unfold event_in_run_submit. rewrite orb_true_iff.
    now rewrite !py_eq_PyStr.
Qed.

(** The type ["format"] with id [7], shown by a new editor. *)
Lemma C7_event_passed_through_witness :
  let ed := Editor.__init__ "k3Yx" None (Some "mini_code_editor") "python" 15 15 in
  (∃ text self1,
     __call__ (Editor._parser ed) (PyDict payload_custom)
       = Ok ((PyStr "format", text), self1)) ∧
  (∃ ed1, Editor.show ed ∅ (PyDict payload_custom) = Ok ed1 ∧
          Editor.event ed1 = PyStr "format") ∧
  (event_in_run_submit (PyStr "format") = true ↔ "format" = "run" ∨ "format" = "submit").
Proof.
  apply (C7_event_passed_through
           (Editor.__init__ "k3Yx" None (Some "mini_code_editor") "python" 15 15)
           ∅ (PyDict payload_custom) payload_custom (PyInt 7) "format").
  - reflexivity.
  - reflexivity.
  - discriminate.
  - reflexivity.
  - reflexivity.
  - discriminate.
Defined.

(** C8: [__call__] returns a pair on [None] and on every dict, whatever
    fields the dict has; a missing id or type gives no event, a missing
    text gives the text kept so far.  The methods of [Code] assign
    attributes and test a flag, nothing in them can raise: each has a
    result for every state and value. *)
Theorem C8_no_raise (self : editor_output_parser.t) (d : gmap string PyVal)
    (c : Code.t) (v : PyVal) :
  __call__ self (PyScalar PyNone) = Ok ((PyNone, last_code self), self) ∧
  (∃ ev text self1,
     __call__ self (PyDict d) = Ok ((ev, text), self1) ∧
     (d !! "id" = None → ev = PyNone) ∧
     (d !! "type" = None → ev = PyNone) ∧
     (d !! "text" = None → text = last_code self)) ∧
  Code.from_ui c v
    = {| Code._value := if Code.new_code_flag c then Code._value c else v;
         Code.new_code_flag := false |} ∧
  Code.from_backend c v = {| Code._value := v; Code.new_code_flag := true |} ∧
  Code.get_value c = Code._value c.
Proof.
  split; [reflexivity|]. split.
  - unfold __call__. cbn [last_id last_code].
    destruct (negb _ && _) eqn:Hfresh; [destruct (truthy _) eqn:Hty|];
      eexists _, _, _; (split; [reflexivity|]); repeat split;
      try (intros H; apply (dict_get_None _ _ (last_code self)) in H; exact H);
      try reflexivity.
    + intros H. rewrite (dict_get_None _ _ _ H) in Hfresh. discriminate.
    + intros H. rewrite (dict_get_None _ _ _ H) in Hty. discriminate.
  - unfold Code.from_ui, Code.from_backend, Code.get_value.
    destruct c as [x []]; repeat split.
Qed.

(** A payload of a shape [__call__] does not accept: a string has no
    [get]. *)
Example call_on_string_raises (self : editor_output_parser.t) :
  __call__ self (PyScalar (PyStr "print(1)")) = Raise AttributeError.
Proof. reflexivity. Qed.

(** C9: a new parser has [last_id = None], so the first dict payload
    with an id that is not [None] and a non-empty string as type gives
    that type as the event, also when a parser that had already seen
    the id ([last_id = i]) gives no event for the same payload, and
    also through [Editor.show] of a newly built [Editor]. *)
Theorem C9_new_parser_fires (d : gmap string PyVal) (i : PyVal) (s : string)
    (c c0 : PyVal) (short_id : string) (code : option Code.t)
    (key : option string) (lang : string) (min_lines max_lines : Z)
    (state : gmap string PyObj) (raw : PyObj) :
  d !! "id" = Some i → i ≠ PyNone →
  d !! "type" = Some (PyStr s) → s ≠ "" →
  last_id (__init__ c) = PyNone ∧
  __call__ (__init__ c) (PyDict d)
    = Ok ((PyStr s, dict_get d "text" c),
          {| last_id := i; last_code := dict_get d "text" c |}) ∧
  __call__ {| last_id := i; last_code := c0 |} (PyDict d)
    = Ok ((PyNone, dict_get d "text" c0),
          {| last_id := i; last_code := dict_get d "text" c0 |}) ∧
  let ed := Editor.__init__ short_id code key lang min_lines max_lines in
  (Editor.get_output ed state raw = PyDict d →
   ∃ ed1, Editor.show ed state raw = Ok ed1 ∧ Editor.event ed1 = PyStr s).
Proof.
  intros Hid Hnone Hty Hs.
  assert (∀ x, __call__ (__init__ x) (PyDict d)
               = Ok ((PyStr s, dict_get d "text" x),
                     {| last_id := i; last_code := dict_get d "text" x |})) as Hnew.
  { intros x. rewrite (call_fresh_id (__init__ x) d i Hid Hnone).
    - now rewrite (dict_get_Some _ _ _ _ Hty), (truthy_PyStr s Hs).
    - apply (py_ne_None_r i Hnone). }
  split; [reflexivity|]. split; [apply Hnew|]. split.
  - apply call_no_fresh_id. right. cbn [last_id].
    rewrite (dict_get_Some _ _ _ _ Hid). apply py_eq_refl.
  - intros ed Hout. unfold Editor.show. rewrite Hout.
    unfold ed, Editor.__init__. cbn [Editor._parser]. rewrite Hnew.
    eexists. split; reflexivity.
Qed.

(** A first editor takes the click ["a1"]; rebuilt for the next redraw
    while the session still holds that payload, the editor reports
    ["run"] again. *)
Lemma C9_new_parser_fires_witness :
  let state : gmap string PyObj := <["mini_code_editor" := PyDict payload_a1]> ∅ in
  let ed := Editor.__init__ "k3Yx" (Some (Code.__init__ (PyStr "print(1)")))
                            (Some "mini_code_editor") "python" 15 15 in
  last_id (__init__ (PyStr "print(1)")) = PyNone ∧
  __call__ (__init__ (PyStr "print(1)")) (PyDict payload_a1)
    = Ok ((PyStr "run", PyStr "print(1)"),
          {| last_id := PyStr "a1"; last_code := PyStr "print(1)" |}) ∧
  __call__ {| last_id := PyStr "a1"; last_code := PyStr "print(1)" |} (PyDict payload_a1)
    = Ok ((PyNone, PyStr "print(1)"),
          {| last_id := PyStr "a1"; last_code := PyStr "print(1)" |}) ∧
  (Editor.get_output ed state (PyScalar PyNone) = PyDict payload_a1 →
   ∃ ed1, Editor.show ed state (PyScalar PyNone) = Ok ed1 ∧
          Editor.event ed1 = PyStr "run").
Proof.
  apply (C9_new_parser_fires payload_a1 (PyStr "a1") "run"
           (PyStr "print(1)") (PyStr "print(1)") "k3Yx"
           (Some (Code.__init__ (PyStr "print(1)")))
           (Some "mini_code_editor") "python" 15 15
           (<["mini_code_editor" := PyDict payload_a1]> ∅) (PyScalar PyNone)).
  - reflexivity.
  - discriminate.
  - reflexivity.
  - discriminate.
Defined.

(** C10: [from_ui] always leaves [new_code_flag] false.  [Editor.show]
    ends with [from_ui], so the flag is false after every [show] that
    returns, and [show] returns unless the output is a scalar other
    than [None]; a [from_backend X] before [show] is thus still the
    value after it, with the flag cleared. *)
Theorem C10_flag_false_after_show (c : Code.t) (v X : PyVal) (ed : Editor.t)
    (state : gmap string PyObj) (raw : PyObj) :
  Code.new_code_flag (Code.from_ui c v) = false ∧
  match Editor.show ed state raw with
  | Ok ed1 => Code.new_code_flag (Editor.code ed1) = false
  | Raise _ => ∃ x, Editor.get_output ed state raw = PyScalar x ∧ x ≠ PyNone
  end ∧
  match Editor.show
          {| Editor.code := Code.from_backend (Editor.code ed) X;
             Editor.key := Editor.key ed;
             Editor.lang := Editor.lang ed;
             Editor.min_lines := Editor.min_lines ed;
             Editor.max_lines := Editor.max_lines ed;
             Editor.event := Editor.event ed;
             Editor._parser := Editor._parser ed |} state raw with
  | Ok ed1 => Editor.code ed1 = {| Code._value := X; Code.new_code_flag := false |}
  | Raise _ => ∃ x, Editor.get_output ed state raw = PyScalar x ∧ x ≠ PyNone
  end.
Proof.
  assert (∀ c0 v0, Code.new_code_flag (Code.from_ui c0 v0) = false) as Hflag.
  { intros [x []] v0; reflexivity. }
  split; [apply Hflag|].
  unfold Editor.show. cbn [Editor._parser Editor.code].
  change (Editor.get_output _ state raw) with (Editor.get_output ed state raw).
  destruct (Editor.get_output ed state raw) as [x|d0].
  - destruct x; cbn; split; try apply Hflag; try reflexivity;
      eexists; (split; [reflexivity | discriminate]).
  - destruct (call_dict_returns (Editor._parser ed) d0) as ([ev text] & p1 & ->).
    split; [apply Hflag | reflexivity].
Qed.

(** * Further properties of the code *)

(** ** The parser over one call and over runs of calls *)

(** [__call__] on a dict, in one expression. *)
Lemma call_dict_eq (self : editor_output_parser.t) (d : gmap string PyVal) :
  let out_id := dict_get d "id" PyNone in
  let out_type := dict_get d "type" (PyStr "") in
  let text := dict_get d "text" (last_code self) in
  let fresh := negb (is_None out_id) && py_ne out_id (last_id self) in
  __call__ self (PyDict d) =
    Ok ((if fresh && truthy out_type then out_type else PyNone, text),
        {| last_id := if fresh then out_id else last_id self; last_code := text |}).
Proof.
  cbv zeta. unfold __call__. cbn [last_id last_code].
  destruct (negb _ && _); [destruct (truthy _)|]; reflexivity.
Qed.

Lemma py_eq_sym (a b : PyVal) : py_eq a b = py_eq b a.
Proof.
  destruct a as [|x|x|x], b as [|y|y|y]; simpl; try reflexivity.
  - now destruct x, y.
  - apply Z.eqb_sym.
  - apply Z.eqb_sym.
  - apply Z.eqb_sym.
  - apply String.eqb_sym.
Qed.

Lemma py_ne_sym (a b : PyVal) : py_ne a b = py_ne b a.
Proof. unfold py_ne. now rewrite py_eq_sym. Qed.

Lemma truthy_not_None (a : PyVal) : truthy a = true → a ≠ PyNone.
Proof. intros H ->. discriminate. Qed.

Lemma deliveries_app (self : editor_output_parser.t) (l1 l2 : list PyObj) :
  deliveries self ((l1 ++ l2)%list) =
    match deliveries self l1 with
    | Raise e => Raise e
    | Ok (rs1, self1) =>
        match deliveries self1 l2 with
        | Raise e => Raise e
        | Ok (rs2, self2) => Ok ((rs1 ++ rs2)%list, self2)
        end
    end.
Proof.
  revert self. induction l1 as [|o l1 IH]; intros self; cbn [app deliveries].
  - destruct (deliveries self l2) as [[rs2 self2]|e]; reflexivity.
  - destruct (__call__ self o) as [[r self1]|e]; [|reflexivity].
    rewrite IH. destruct (deliveries self1 l1) as [[rs1 self2]|e]; [|reflexivity].
    destruct (deliveries self2 l2) as [[rs2 self3]|e]; reflexivity.
Qed.

Lemma deliveries_None (self : editor_output_parser.t) (n : nat) :
  deliveries self (replicate n (PyScalar PyNone)) =
    Ok (replicate n (PyNone, last_code self), self).
Proof.
  induction n as [|n IH]; [reflexivity|].
  cbn [replicate deliveries __call__]. now rewrite IH.
Qed.

(** X1: an event is returned exactly when the payload carries an id
    that is not [None] and [!=] the stored one together with a type of
    true value, and the event is then the value of the type field. *)
Theorem event_iff_fresh_id_and_type (self self1 : editor_output_parser.t)
    (d : gmap string PyVal) (ev text : PyVal) :
  __call__ self (PyDict d) = Ok ((ev, text), self1) →
  (ev ≠ PyNone ↔
     ∃ i ty, d !! "id" = Some i ∧ i ≠ PyNone ∧ py_ne i (last_id self) = true ∧
             d !! "type" = Some ty ∧ truthy ty = true) ∧
  (ev ≠ PyNone → d !! "type" = Some ev ∧ d !! "id" = Some (last_id self1)).
Proof.
  rewrite call_dict_eq. cbv zeta. intros [= Hev _ Hself1].
  unfold dict_get in *.
  destruct (d !! "id") as [i|] eqn:Hid; cbn [is_None negb andb] in *.
  2:{ subst ev. split; [split|]; try congruence.
      intros (i & ty & ? & _); discriminate. }
  destruct (d !! "type") as [ty|] eqn:Hty.
  2:{ assert (ev = PyNone) as ->.
      { destruct (negb (is_None i) && py_ne i (last_id self)); exact (eq_sym Hev). }
      split; [split|]; try congruence.
      intros (? & ? & _ & _ & _ & ? & _); discriminate. }
  destruct (is_None i) eqn:Hnone; cbn [negb andb] in *.
  { subst ev. apply is_None_true in Hnone. subst i.
    split; [split|]; try congruence.
    intros (? & ? & [= <-] & ? & _); congruence. }
  destruct (py_ne i (last_id self)) eqn:Hne; cbn [andb] in *.
  2:{ subst ev. split; [split|]; try congruence.
      intros (? & ? & [= <-] & _ & ? & _); congruence. }
  destruct (truthy ty) eqn:Htr; subst ev self1; cbn [last_id].
  - split; [split|]; auto.
    + intros _. exists i, ty. repeat split; auto.
      intros ->; discriminate.
    + intros _. now apply truthy_not_None.
  - split; [split|]; try congruence.
    intros (? & ? & _ & _ & _ & [= <-] & ?); congruence.
Qed.

Lemma event_iff_fresh_id_and_type_witness :
  (PyStr "run" ≠ PyNone ↔
     ∃ i ty, payload_a1 !! "id" = Some i ∧ i ≠ PyNone ∧
             py_ne i (last_id (__init__ (PyStr ""))) = true ∧
             payload_a1 !! "type" = Some ty ∧ truthy ty = true) ∧
  (PyStr "run" ≠ PyNone →
     payload_a1 !! "type" = Some (PyStr "run") ∧
     payload_a1 !! "id"
       = Some (last_id {| last_id := PyStr "a1"; last_code := PyStr "print(1)" |})).
Proof.
  apply (event_iff_fresh_id_and_type (__init__ (PyStr ""))
           {| last_id := PyStr "a1"; last_code := PyStr "print(1)" |}
           payload_a1 (PyStr "run") (PyStr "print(1)")).
  reflexivity.
Defined.

(** X2: the id is stored before the type is looked at.  A payload with
    a new id and no type, or a type of false value, returns no event
    and uses the id up: a later payload with that id returns no event
    either, whatever its type. *)
Theorem id_used_up_by_empty_type (self : editor_output_parser.t)
    (d1 d2 : gmap string PyVal) (i : PyVal) :
  d1 !! "id" = Some i → i ≠ PyNone → py_ne i (last_id self) = true →
  truthy (dict_get d1 "type" (PyStr "")) = false →
  d2 !! "id" = Some i →
  let text1 := dict_get d1 "text" (last_code self) in
  let text2 := dict_get d2 "text" text1 in
  deliveries self [PyDict d1; PyDict d2] =
    Ok ([(PyNone, text1); (PyNone, text2)], {| last_id := i; last_code := text2 |}).
Proof.
  intros Hid1 Hnone Hne Hty Hid2 text1 text2. cbn [deliveries].
  rewrite (call_fresh_id self d1 i Hid1 Hnone Hne), Hty.
  rewrite call_no_fresh_id; [reflexivity|].
  right. cbn [last_id]. rewrite (dict_get_Some _ _ _ _ Hid2). apply py_eq_refl.
Qed.

(** The widget's first report, with an id and an empty type, followed
    by a report with the same id and the type ["run"]. *)
Lemma id_used_up_by_empty_type_witness :
  deliveries (__init__ (PyStr ""))
             [PyDict (<["type" := PyStr ""]> payload_a1); PyDict payload_a1] =
    Ok ([(PyNone, PyStr "print(1)"); (PyNone, PyStr "print(1)")],
        {| last_id := PyStr "a1"; last_code := PyStr "print(1)" |}).
Proof.
  refine (id_used_up_by_empty_type (__init__ (PyStr ""))
            (<["type" := PyStr ""]> payload_a1) payload_a1 (PyStr "a1") _ _ _ _ _).
  - reflexivity.
  - discriminate.
  - reflexivity.
  - reflexivity.
  - reflexivity.
Defined.

(** X3: redraws without output do not reset the stored id.  After a
    parser has taken a payload's id, any number of [None] outputs
    followed by the same payload return no event, and the text stays. *)
Theorem None_outputs_keep_last_id (d : gmap string PyVal) (i text0 : PyVal) (n : nat) :
  d !! "id" = Some i →
  let text := dict_get d "text" text0 in
  let self1 := {| last_id := i; last_code := text |} in
  deliveries self1 (replicate n (PyScalar PyNone) ++ [PyDict d])%list =
    Ok ((replicate n (PyNone, text) ++ [(PyNone, text)])%list, self1).
Proof.
  intros Hid text self1. subst self1 text.
  rewrite deliveries_app, deliveries_None. cbn [deliveries last_code].
  now rewrite (call_same_id_fixpoint d i text0 Hid).
Qed.

Lemma None_outputs_keep_last_id_witness :
  let self1 := {| last_id := PyStr "a1"; last_code := PyStr "print(1)" |} in
  deliveries self1 [PyScalar PyNone; PyScalar PyNone; PyDict payload_a1] =
    Ok ([(PyNone, PyStr "print(1)"); (PyNone, PyStr "print(1)");
         (PyNone, PyStr "print(1)")], self1).
Proof.
  apply (None_outputs_keep_last_id payload_a1 (PyStr "a1") (PyStr "") 2).
  reflexivity.
Defined.

(** X4: only the last id is remembered.  With two payloads whose ids
    [a] and [b] differ, delivering the first, the second and the first
    again returns three events: the first id is new again after the
    second one. *)
Theorem only_last_id_remembered (self : editor_output_parser.t)
    (da db : gmap string PyVal) (a b : PyVal) (sa sb : string) :
  da !! "id" = Some a → a ≠ PyNone → da !! "type" = Some (PyStr sa) → sa ≠ "" →
  db !! "id" = Some b → b ≠ PyNone → db !! "type" = Some (PyStr sb) → sb ≠ "" →
  py_ne a (last_id self) = true → py_ne a b = true →
  let t1 := dict_get da "text" (last_code self) in
  let t2 := dict_get db "text" t1 in
  let t3 := dict_get da "text" t2 in
  deliveries self [PyDict da; PyDict db; PyDict da] =
    Ok ([(PyStr sa, t1); (PyStr sb, t2); (PyStr sa, t3)],
        {| last_id := a; last_code := t3 |}).
Proof.
  intros Hida Ha Htya Hsa Hidb Hb Htyb Hsb Hne Hab t1 t2 t3. cbn [deliveries].
  rewrite (call_fresh_id self da a Hida Ha Hne).
  rewrite (dict_get_Some _ _ _ _ Htya), (truthy_PyStr sa Hsa).
  rewrite (call_fresh_id _ db b Hidb Hb) by (cbn [last_id]; now rewrite py_ne_sym).
  rewrite (dict_get_Some _ _ _ _ Htyb), (truthy_PyStr sb Hsb).
  rewrite (call_fresh_id _ da a Hida Ha) by exact Hab.
  rewrite (dict_get_Some _ _ _ _ Htya), (truthy_PyStr sa Hsa).
  reflexivity.
Qed.

Lemma only_last_id_remembered_witness :
  deliveries (__init__ (PyStr ""))
             [PyDict payload_a1; PyDict payload_custom; PyDict payload_a1] =
    Ok ([(PyStr "run", PyStr "print(1)"); (PyStr "format", PyStr "print(1)");
         (PyStr "run", PyStr "print(1)")],
        {| last_id := PyStr "a1"; last_code := PyStr "print(1)" |}).
Proof.
  apply (only_last_id_remembered (__init__ (PyStr "")) payload_a1 payload_custom
           (PyStr "a1") (PyInt 7) "run" "format");
    try reflexivity; discriminate.
Defined.

(** X5: an output that is neither [None] nor a dict makes [__call__]
    raise [AttributeError]; [Editor.show] lets it through, and a run of
    deliveries stops at the first such output. *)
Theorem non_dict_output_raises (self : editor_output_parser.t) (v : PyVal)
    (ed : Editor.t) (state : gmap string PyObj) (raw : PyObj)
    (before after : list PyObj) :
  v ≠ PyNone →
  __call__ self (PyScalar v) = Raise AttributeError ∧
  (Editor.get_output ed state raw = PyScalar v →
   Editor.show ed state raw = Raise AttributeError) ∧
  deliveries self (before ++ PyScalar v :: after)%list = Raise AttributeError.
Proof.
  intros Hv.
  assert (∀ p, __call__ p (PyScalar v) = Raise AttributeError) as Hraise.
  { intros p. destruct v; [congruence| | |]; reflexivity. }
  split; [apply Hraise|]. split.
  - intros Hout. unfold Editor.show. now rewrite Hout, Hraise.
  - rewrite deliveries_app.
    destruct (deliveries self before) as [[rs self1]|[]]; [|reflexivity].
    cbn [deliveries]. now rewrite Hraise.
Qed.

Lemma non_dict_output_raises_witness :
  let ed := Editor.__init__ "k3Yx" None (Some "mini_code_editor") "python" 15 15 in
  __call__ (__init__ (PyStr "")) (PyScalar (PyStr "print(1)")) = Raise AttributeError ∧
  (Editor.get_output ed ∅ (PyScalar (PyStr "print(1)")) = PyScalar (PyStr "print(1)") →
   Editor.show ed ∅ (PyScalar (PyStr "print(1)")) = Raise AttributeError) ∧
  deliveries (__init__ (PyStr ""))
             ([PyDict payload_a1] ++ PyScalar (PyStr "print(1)") :: [PyDict payload_a1])%list
    = Raise AttributeError.
Proof.
  apply (non_dict_output_raises (__init__ (PyStr "")) (PyStr "print(1)")
           (Editor.__init__ "k3Yx" None (Some "mini_code_editor") "python" 15 15)
           ∅ (PyScalar (PyStr "print(1)")) [PyDict payload_a1] [PyDict payload_a1]).
  discriminate.
Defined.

(** ** Runs of UI writes on a [Code] *)

Lemma last_cons_default {A : Type} (x d : A) (l : list A) :
  List.last (x :: l) d = List.last l x.
Proof.
  revert x d. induction l as [|y l IH]; intros x d; [reflexivity|].
  change (List.last (x :: y :: l) d) with (List.last (y :: l) d).
  now rewrite !IH.
Qed.

Lemma ui_writes_unflagged (v : PyVal) (values : list PyVal) :
  ui_writes {| Code._value := v; Code.new_code_flag := false |} values
    = {| Code._value := List.last values v; Code.new_code_flag := false |}.
Proof.
  revert v. induction values as [|x l IH]; intros v; [reflexivity|].
  rewrite last_cons_default. apply IH.
Qed.

(** X6: a run of UI writes leaves the last value written, except that
    a [Code] whose flag is set drops the first write of the run; after
    a backend write [X] the value is thus [X] for a run of at most one
    write and the last write for a longer run.  The flag is cleared by
    the first write. *)
Theorem ui_writes_keep_last (c : Code.t) (X : PyVal) (values : list PyVal) :
  Code.get_value (ui_writes c values)
    = (if Code.new_code_flag c
       then List.last (tail values) (Code.get_value c)
       else List.last values (Code.get_value c)) ∧
  Code.new_code_flag (ui_writes c values)
    = match values with
      | [] => Code.new_code_flag c
      | _ :: _ => false
      end ∧
  Code.get_value (ui_writes (Code.from_backend c X) values) = List.last (tail values) X.
Proof.
  assert (∀ v l, ui_writes {| Code._value := v; Code.new_code_flag := true |} l
                 = match l with
                   | [] => {| Code._value := v; Code.new_code_flag := true |}
                   | _ :: l' => {| Code._value := List.last l' v;
                                   Code.new_code_flag := false |}
                   end) as Hflagged.
  { intros v [|x l]; [reflexivity|]. apply ui_writes_unflagged. }
  destruct c as [v [|]]; cbn [Code.new_code_flag Code.get_value Code._value].
  - rewrite Hflagged. unfold Code.from_backend. rewrite Hflagged.
    destruct values; repeat split.
  - rewrite ui_writes_unflagged. unfold Code.from_backend. rewrite Hflagged.
    destruct values; repeat split.
Qed.

(** ** Successive redraws of one [Editor] *)

Lemma call_text_is_last_code (self self1 : editor_output_parser.t)
    (output : PyObj) (ev text : PyVal) :
  __call__ self output = Ok ((ev, text), self1) → text = last_code self1.
Proof.
  destruct output as [[| | |]|d]; try discriminate.
  - now intros [= _ <- <-].
  - rewrite call_dict_eq. cbv zeta. now intros [= _ <- <-].
Qed.

Lemma show_returns (ed ed1 : Editor.t) (state : gmap string PyObj) (raw : PyObj) :
  Editor.show ed state raw = Ok ed1 →
  Code.new_code_flag (Editor.code ed1) = false ∧
  (Code.new_code_flag (Editor.code ed) = false →
   Code.get_value (Editor.code ed1) = last_code (Editor._parser ed1)).
Proof.
  unfold Editor.show.
  destruct (__call__ _ _) as [[[ev text] p1]|e] eqn:Hcall; [|discriminate].
  apply call_text_is_last_code in Hcall. intros [= <-].
  cbn [Editor.code Editor._parser]. unfold Code.from_ui.
  destruct (Code.new_code_flag (Editor.code ed)); split; try reflexivity;
    try discriminate; intros _; exact Hcall.
Qed.

Lemma shows_unflagged (ed ed1 : Editor.t) (redraws : list (gmap string PyObj * PyObj)) :
  shows ed redraws = Ok ed1 → redraws ≠ [] →
  Code.new_code_flag (Editor.code ed) = false →
  Code.get_value (Editor.code ed1) = last_code (Editor._parser ed1) ∧
  Code.new_code_flag (Editor.code ed1) = false.
Proof.
  revert ed. induction redraws as [|[state raw] rest IH]; intros ed Hrun Hne Hflag;
    [congruence|].
  cbn [shows] in Hrun.
  destruct (Editor.show ed state raw) as [ed'|e] eqn:Hshow; [|discriminate].
  destruct (show_returns _ _ _ _ Hshow) as [Hflag' Hsync].
  destruct rest as [|r rest].
  - injection Hrun as <-. auto.
  - apply (IH ed'); [exact Hrun | discriminate | exact Hflag'].
Qed.

(** X7: after two or more successive [show] calls on one [Editor], or
    after one when the flag of its [Code] was not set, the [Code] holds
    the text last kept by the parser and its flag is cleared. *)
Theorem Code_follows_parser_text (ed ed1 : Editor.t)
    (redraws : list (gmap string PyObj * PyObj)) :
  shows ed redraws = Ok ed1 →
  (2 ≤ length redraws)%nat ∨
    ((1 ≤ length redraws)%nat ∧ Code.new_code_flag (Editor.code ed) = false) →
  Code.get_value (Editor.code ed1) = last_code (Editor._parser ed1) ∧
  Code.new_code_flag (Editor.code ed1) = false.
Proof.
  intros Hrun [Hlen|[Hlen Hflag]].
  - destruct redraws as [|[state raw] rest]; [simpl in Hlen; lia|].
    cbn [shows] in Hrun.
    destruct (Editor.show ed state raw) as [ed'|e] eqn:Hshow; [|discriminate].
    apply (shows_unflagged ed' ed1 rest Hrun).
    + destruct rest; [simpl in Hlen; lia | discriminate].
    + apply (show_returns _ _ _ _ Hshow).
  - apply (shows_unflagged ed ed1 redraws Hrun); [|exact Hflag].
    destruct redraws; [simpl in Hlen; lia | discriminate].
Qed.

(** One editor built over a [Code] written by the backend, shown once
    with the payload ["a1"] and once without output. *)
Lemma Code_follows_parser_text_witness :
  let ed1 :=
    {| Editor.code := {| Code._value := PyStr "print(1)"; Code.new_code_flag := false |};
       Editor.key := "mini_code_editor";
       Editor.lang := "python";
       Editor.min_lines := 15;
       Editor.max_lines := 15;
       Editor.event := PyNone;
       Editor._parser := {| last_id := PyStr "a1"; last_code := PyStr "print(1)" |} |} in
  Code.get_value (Editor.code ed1) = last_code (Editor._parser ed1) ∧
  Code.new_code_flag (Editor.code ed1) = false.
Proof.
  refine (Code_follows_parser_text
            (Editor.__init__ "k3Yx"
               (Some (Code.from_backend (Code.__init__ (PyStr "")) (PyStr "x = 1")))
               (Some "mini_code_editor") "python" 15 15)
            _ [(∅, PyDict payload_a1); (∅, PyScalar PyNone)] _ _).
  - reflexivity.
  - left. simpl. lia.
Defined.

Lemma show_on_dict (ed : Editor.t) (state : gmap string PyObj) (raw : PyObj)
    (d : gmap string PyVal) :
  Editor.get_output ed state raw = PyDict d →
  ∃ ev p1,
    __call__ (Editor._parser ed) (PyDict d)
      = Ok ((ev, dict_get d "text" (last_code (Editor._parser ed))), p1) ∧
    Editor.show ed state raw =
      Ok {| Editor.code :=
              Code.from_ui (Editor.code ed)
                           (dict_get d "text" (last_code (Editor._parser ed)));
            Editor.key := Editor.key ed;
            Editor.lang := Editor.lang ed;
            Editor.min_lines := Editor.min_lines ed;
            Editor.max_lines := Editor.max_lines ed;
            Editor.event := ev;
            Editor._parser := p1 |}.
Proof.
  intros Hout. unfold Editor.show. rewrite Hout, call_dict_eq. cbv zeta.
  eexists _, _. split; reflexivity.
Qed.

Lemma show_on_None (ed : Editor.t) (state : gmap string PyObj) (raw : PyObj) :
  Editor.get_output ed state raw = PyScalar PyNone →
  Editor.show ed state raw =
    Ok {| Editor.code := Code.from_ui (Editor.code ed) (last_code (Editor._parser ed));
          Editor.key := Editor.key ed;
          Editor.lang := Editor.lang ed;
          Editor.min_lines := Editor.min_lines ed;
          Editor.max_lines := Editor.max_lines ed;
          Editor.event := PyNone;
          Editor._parser := Editor._parser ed |}.
Proof. intros Hout. unfold Editor.show. now rewrite Hout. Qed.

(** X8: on one [Editor], a value written by the backend outlasts one
    [show] only.  While the widget goes on reporting its own text [Y],
    the first [show] after [from_backend X] keeps [X] and the second
    one puts [Y] back, whether the second redraw delivers the payload
    again or no output at all. *)
Theorem backend_value_lost_at_second_show (ed : Editor.t)
    (state : gmap string PyObj) (raw : PyObj) (d : gmap string PyVal) (X Y : PyVal) :
  Editor.get_output ed state raw = PyDict d → d !! "text" = Some Y →
  let ed0 :=
    {| Editor.code := Code.from_backend (Editor.code ed) X;
       Editor.key := Editor.key ed;
       Editor.lang := Editor.lang ed;
       Editor.min_lines := Editor.min_lines ed;
       Editor.max_lines := Editor.max_lines ed;
       Editor.event := Editor.event ed;
       Editor._parser := Editor._parser ed |} in
  (∃ ed1, shows ed0 [(state, raw)] = Ok ed1 ∧
          Code.get_value (Editor.code ed1) = X) ∧
  (∃ ed2, shows ed0 [(state, raw); (state, raw)] = Ok ed2 ∧
          Code.get_value (Editor.code ed2) = Y) ∧
  (∃ ed2, shows ed0 [(state, raw); (∅, PyScalar PyNone)] = Ok ed2 ∧
          Code.get_value (Editor.code ed2) = Y).
Proof.
  intros Hout Htext ed0.
  assert (Editor.get_output ed0 state raw = PyDict d) as Hout0 by exact Hout.
  destruct (show_on_dict ed0 state raw d Hout0) as (ev & p1 & Hcall & Hshow).
  pose proof (call_text_is_last_code _ _ _ _ _ Hcall) as Hp1.
  rewrite (dict_get_Some _ _ _ _ Htext) in Hshow, Hp1.
  cbn [shows]. rewrite Hshow. split; [eexists; split; reflexivity|].
  match type of Hshow with _ = Ok ?e => set (ed1 := e) end.
  assert (Editor.get_output ed1 state raw = PyDict d) as Hout1 by exact Hout.
  destruct (show_on_dict ed1 state raw d Hout1) as (ev2 & p2 & _ & Hshow2).
  rewrite (dict_get_Some _ _ _ _ Htext) in Hshow2.
  split.
  - rewrite Hshow2. eexists; split; reflexivity.
  - rewrite (show_on_None ed1 ∅ (PyScalar PyNone)) by reflexivity.
    eexists; split; [reflexivity|].
    cbn [Editor.code Code.get_value ed1 Editor._parser]. now rewrite <- Hp1.
Qed.

Lemma backend_value_lost_at_second_show_witness :
  let ed0 :=
    Editor.__init__ "k3Yx"
      (Some (Code.from_backend (Code.__init__ (PyStr "")) (PyStr "x = 1")))
      (Some "mini_code_editor") "python" 15 15 in
  let state : gmap string PyObj := <["mini_code_editor" := PyDict payload_a1]> ∅ in
  (∃ ed1, shows ed0 [(state, PyScalar PyNone)] = Ok ed1 ∧
          Code.get_value (Editor.code ed1) = PyStr "x = 1") ∧
  (∃ ed2, shows ed0 [(state, PyScalar PyNone); (state, PyScalar PyNone)] = Ok ed2 ∧
          Code.get_value (Editor.code ed2) = PyStr "print(1)") ∧
  (∃ ed2, shows ed0 [(state, PyScalar PyNone); (∅, PyScalar PyNone)] = Ok ed2 ∧
          Code.get_value (Editor.code ed2) = PyStr "print(1)").
Proof.
  refine (backend_value_lost_at_second_show
            (Editor.__init__ "k3Yx" (Some (Code.__init__ (PyStr "")))
               (Some "mini_code_editor") "python" 15 15)
            (<["mini_code_editor" := PyDict payload_a1]> ∅) (PyScalar PyNone)
            payload_a1 (PyStr "x = 1") (PyStr "print(1)") _ _).
  - reflexivity.
  - reflexivity.
Defined.

(** X9: a newly built [Editor] shown before the widget has reported
    anything keeps the text of its [Code] and has no event; its parser
    is as [__init__] left it. *)
Theorem new_editor_without_output (short_id : string) (code : option Code.t)
    (key : option string) (lang : string) (min_lines max_lines : Z)
    (state : gmap string PyObj) (raw : PyObj) :
  let ed := Editor.__init__ short_id code key lang min_lines max_lines in
  Editor.get_output ed state raw = PyScalar PyNone →
  ∃ ed1, Editor.show ed state raw = Ok ed1 ∧
         Code.get_value (Editor.code ed1) = Code.get_value (Editor.code ed) ∧
         Editor.event ed1 = PyNone ∧
         Editor._parser ed1 = __init__ (Code.get_value (Editor.code ed)).
Proof.
  intros ed Hout. rewrite (show_on_None ed state raw Hout).
  eexists. split; [reflexivity|]. cbn [Editor.code Editor.event Editor._parser].
  split; [|split; reflexivity].
  unfold ed, Editor.__init__. cbn [Editor.code Editor._parser last_code __init__].
  unfold Code.from_ui. now destruct (Code.new_code_flag _).
Qed.

Lemma new_editor_without_output_witness :
  let ed := Editor.__init__ "k3Yx" (Some (Code.__init__ (PyStr "x = 1")))
                            (Some "mini_code_editor") "python" 20 20 in
  ∃ ed1, Editor.show ed ∅ (PyScalar PyNone) = Ok ed1 ∧
         Code.get_value (Editor.code ed1) = Code.get_value (Editor.code ed) ∧
         Editor.event ed1 = PyNone ∧
         Editor._parser ed1 = __init__ (Code.get_value (Editor.code ed)).
Proof.
  refine (new_editor_without_output "k3Yx" (Some (Code.__init__ (PyStr "x = 1")))
            (Some "mini_code_editor") "python" 20 20 ∅ (PyScalar PyNone) _).
  reflexivity.
Defined.

(** ** Editor keys *)

Lemma length_string_of_list_ascii (l : list Ascii.ascii) :
  String.length (string_of_list_ascii l) = length l.
Proof. induction l as [|c l IH]; simpl; [reflexivity | now rewrite IH]. Qed.

Lemma length_short_id (rand : nat → nat) (len : Z) :
  String.length (_short_id rand len) = Z.to_nat len.
Proof.
  unfold _short_id, random_choices. cbv zeta.
  now rewrite length_string_of_list_ascii, List.length_map, List.length_seq.
Qed.

(** X10: [_short_id(length)] is a string of [length] characters (none
    for a negative [length]), each an ASCII letter or a digit, whatever
    the random draws. *)
Theorem short_id_length_and_alphabet (rand : nat → nat) (len : Z) :
  String.length (_short_id rand len) = Z.to_nat len ∧
  List.Forall (λ c, List.In c (list_ascii_of_string (ascii_letters ++ digits)))
              (list_ascii_of_string (_short_id rand len)).
Proof.
  split; [apply length_short_id|].
  unfold _short_id. cbv zeta.
  rewrite list_ascii_of_string_of_list_ascii. unfold random_choices.
  - apply List.Forall_forall. intros c Hc.
    apply List.in_map_iff in Hc as (j & <- & _).
    apply List.nth_In. apply Nat.mod_upper_bound.
    vm_compute. discriminate.
Qed.

(** X11: the key of an [Editor] is the key given when that is a
    non-empty string, and a drawn id otherwise; with [_short_id()] and
    its default length 16 the key is never empty. *)
Theorem editor_key_never_empty (rand : nat → nat) (code : option Code.t)
    (key : option string) (lang : string) (min_lines max_lines : Z) :
  let ed := Editor.__init__ (_short_id rand 16) code key lang min_lines max_lines in
  Editor.key ed ≠ "" ∧
  (∀ k, key = Some k → k ≠ "" → Editor.key ed = k) ∧
  (key = None ∨ key = Some "" → Editor.key ed = _short_id rand 16).
Proof.
  assert (_short_id rand 16 ≠ "") as Hid.
  { intros Heq.
    pose proof (length_short_id rand 16) as Hlen.
    rewrite Heq in Hlen. discriminate. }
  intros ed. unfold ed, Editor.__init__. cbn [Editor.key].
  destruct key as [k|].
  - destruct (String.eqb_spec k "") as [->|Hk].
    + repeat split; auto. intros k [= <-] Hk. congruence.
    + repeat split; auto.
      * now intros k' [= <-].
      * intros [?|[= ->]]; congruence.
  - repeat split; auto. discriminate.
Qed.

(** ** Autosave and autoload *)

Lemma eqb_path_false (path : string) : path ≠ "" → String.eqb path "" = false.
Proof. apply String.eqb_neq. Qed.


Lemma autoload_regular_file (path default_text content : string) (writable : bool)
    (fs : gmap string fnode) :
  path ≠ "" → fs !! path = Some (RegularFile content writable) →
  _autoload_if_needed path default_text fs = content.
Proof.
  intros Hpath Hfs. unfold _autoload_if_needed, path_exists, read_text.
  now rewrite (eqb_path_false path Hpath), Hfs.
Qed.



Lemma autosave_other_path (toast_works : bool) (path p : string)
    (text : PyVal) (fs : gmap string fnode) :
  p ≠ path → fst (_autosave toast_works path text fs) !! p = fs !! p.
Proof.
  intros Hp. unfold _autosave, open_w.
  destruct (negb ENABLE_AUTOSAVE || String.eqb path ""); [reflexivity|].
  destruct (fs !! path) as [[old [|]|]|]; cbn [fst]; try reflexivity;
    destruct text; cbn [fst];
    rewrite ?lookup_insert_ne by congruence; reflexivity.
Qed.

(** X13: [_autosave] changes no path but its own, shows at most one
    notice, and with an empty path does nothing at all. *)
Theorem autosave_touches_one_path (toast_works : bool) (path : string)
    (text : PyVal) (fs : gmap string fnode) :
  (∀ p, p ≠ path → fst (_autosave toast_works path text fs) !! p = fs !! p) ∧
  (length (snd (_autosave toast_works path text fs)) ≤ 1)%nat ∧
  _autosave toast_works "" text fs = (fs, []).
Proof.
  split; [|split; [|reflexivity]].
  - intros p Hp. now apply autosave_other_path.
  - unfold _autosave, open_w.
    destruct (negb ENABLE_AUTOSAVE || String.eqb path ""); [simpl; lia|].
    destruct (fs !! path) as [[old [|]|]|]; destruct toast_works, text; simpl; lia.
Qed.

(** X14: a failed save is reported, not raised.  When the path cannot
    be opened for writing the files stay as they are and one notice is
    shown, a toast or, when [st.toast] raises, a warning.  When the
    value to save is not a string, [open] has already emptied the file:
    the old content is gone and one notice is shown. *)
Theorem autosave_failure (toast_works : bool) (path : string) (text : PyVal)
    (fs : gmap string fnode) :
  path ≠ "" →
  let notice e := if toast_works then autosave_toast e else autosave_warning e in
  (fs !! path = Some Unopenable ∨ (∃ old, fs !! path = Some (RegularFile old false)) →
   _autosave toast_works path text fs = (fs, [notice OSError])) ∧
  (fs !! path = None ∨ (∃ old, fs !! path = Some (RegularFile old true)) →
   (∀ s, text ≠ PyStr s) →
   _autosave toast_works path text fs
     = (<[path := RegularFile "" true]> fs, [notice TypeError])).
Proof.
  intros Hpath notice. unfold _autosave, open_w.
  rewrite (eqb_path_false path Hpath). cbn [ENABLE_AUTOSAVE negb orb].
  split.
  - intros [-> | [old ->]]; unfold notice; now destruct toast_works.
  - intros Hfs Htext.
    assert (match text with
            | PyStr s => (<[path := RegularFile s true]> (<[path := RegularFile "" true]> fs),
                          [] : list Element)
            | _ => (<[path := RegularFile "" true]> fs,
                    if toast_works then [autosave_toast TypeError]
                    else [autosave_warning TypeError])
            end = (<[path := RegularFile "" true]> fs, [notice TypeError])) as Hres.
    { destruct text as [| | |s]; try (unfold notice; now destruct toast_works).
      now destruct (Htext s). }
    destruct Hfs as [-> | [old ->]]; exact Hres.
Qed.

Lemma autosave_failure_witness :
  let fs : gmap string fnode := <[CODE_AUTOSAVE_PATH := RegularFile "x = 1" true]> ∅ in
  let ro : gmap string fnode := <[CODE_AUTOSAVE_PATH := RegularFile "x = 1" false]> ∅ in
  _autosave false CODE_AUTOSAVE_PATH (PyStr "x = 2") ro = (ro, [autosave_warning OSError]) ∧
  _autosave true CODE_AUTOSAVE_PATH PyNone fs
    = (<[CODE_AUTOSAVE_PATH := RegularFile "" true]> fs, [autosave_toast TypeError]).
Proof.
  split.
  - refine (proj1 (autosave_failure false CODE_AUTOSAVE_PATH (PyStr "x = 2")
                     (<[CODE_AUTOSAVE_PATH := RegularFile "x = 1" false]> ∅) _) _).
    + discriminate.
    + right. eexists. reflexivity.
  - refine (proj2 (autosave_failure true CODE_AUTOSAVE_PATH PyNone
                     (<[CODE_AUTOSAVE_PATH := RegularFile "x = 1" true]> ∅) _) _ _).
    + discriminate.
    + right. eexists. reflexivity.
    + discriminate.
Defined.

(** X15: [_autoload_if_needed] returns the content of a text file at a
    non-empty path, and the default text when the path is empty, names
    nothing, or names something that cannot be opened. *)
Theorem autoload_or_default (path default_text : string) (fs : gmap string fnode) :
  (∀ content writable,
     path ≠ "" → fs !! path = Some (RegularFile content writable) →
     _autoload_if_needed path default_text fs = content) ∧
  (path = "" ∨ fs !! path = None ∨ fs !! path = Some Unopenable →
   _autoload_if_needed path default_text fs = default_text).
Proof.
  split.
  - intros content writable. apply autoload_regular_file.
  - unfold _autoload_if_needed, path_exists, read_text.
    intros [-> | [-> | ->]]; [reflexivity | |];
      destruct (AUTOLOAD_ON_START && negb (String.eqb path "")); reflexivity.
Qed.

(** ** The session of the code cell *)

(** X16: [_ensure_code_state] sets the five attributes of the code
    cell, keeps every one that was already set, and touches nothing
    else; run again it changes nothing, whatever the files then hold,
    so the autosave file is read once per session at most. *)
Theorem ensure_code_state_fills_once {NS : Type} (empty_ns : NS)
    (fs fs' : gmap string fnode) (st : Session NS) :
  let st1 := _ensure_code_state empty_ns fs st in
  (is_Some (mini_code_code st1) ∧ is_Some (mini_code_ns st1) ∧
   is_Some (mini_code_stdout st1) ∧ is_Some (mini_code_stderr st1) ∧
   is_Some (mini_code_exception st1)) ∧
  (is_Some (mini_code_code st) → mini_code_code st1 = mini_code_code st) ∧
  (is_Some (mini_code_ns st) → mini_code_ns st1 = mini_code_ns st) ∧
  (is_Some (mini_code_stdout st) → mini_code_stdout st1 = mini_code_stdout st) ∧
  (is_Some (mini_code_stderr st) → mini_code_stderr st1 = mini_code_stderr st) ∧
  (is_Some (mini_code_exception st) →
     mini_code_exception st1 = mini_code_exception st) ∧
  (widgets st1 = widgets st ∧ mini_md_code st1 = mini_md_code st ∧
   mini_md_last_run st1 = mini_md_last_run st) ∧
  _ensure_code_state empty_ns fs' st1 = st1.
Proof.
  destruct st as [w [c|] [ns|] [o|] [e|] [x|] md lr]; cbv zeta.
  all: repeat match goal with |- _ ∧ _ => split end.
  all: try reflexivity.
  all: try (eexists; reflexivity).
  all: intros [? Hset]; discriminate Hset.
Qed.

(** Unfolding of the session's setters and projections. *)
Ltac session_simpl :=
  unfold with_session, draw, set_mini_code_code, set_mini_code_ns,
    set_mini_code_stdout, set_mini_code_stderr, set_mini_code_exception,
    set_mini_md_code, set_mini_md_last_run;
  cbn [session files screen widgets mini_code_code mini_code_ns mini_code_stdout
       mini_code_stderr mini_code_exception mini_md_code mini_md_last_run].

Ltac session_simpl_in H :=
  unfold with_session, draw, set_mini_code_code, set_mini_code_ns,
    set_mini_code_stdout, set_mini_code_stderr, set_mini_code_exception,
    set_mini_md_code, set_mini_md_last_run in H;
  cbn [session files screen widgets mini_code_code mini_code_ns mini_code_stdout
       mini_code_stderr mini_code_exception mini_md_code mini_md_last_run] in H.

Lemma run_code_eq {NS : Type} (py_exec : PyVal → NS → ExecResult NS)
    (toast_works : bool) (w : World NS) (c : Code.t) (ns : NS) :
  mini_code_code (session w) = Some c → mini_code_ns (session w) = Some ns →
  let src := Code.get_value c in
  let r := py_exec src ns in
  _run_code py_exec toast_works w =
    match raised r with
    | RaisedBaseException =>
        Aborted AbortCell (with_session (set_mini_code_ns (ns_after r) (session w)) w)
    | _ =>
        Completed
          (autosave_in toast_works CODE_AUTOSAVE_PATH src
             (mkWorld
                (mkSession (widgets (session w)) (Some c) (Some (ns_after r))
                           (Some (out r)) (Some (err r))
                           (Some (stored_exception (raised r)))
                           (mini_md_code (session w)) (mini_md_last_run (session w)))
                (files w) (screen w)))
    end.
Proof.
  intros Hc Hns src r. unfold _run_code. rewrite Hc, Hns. fold src. fold r.
  destruct w as [st fs scr]. cbn [session] in Hc.
  destruct (raised r); session_simpl; rewrite ?Hc; reflexivity.
Qed.



(** ** One redraw of the code cell *)

Lemma ensure_code_state_filled {NS : Type} (empty_ns : NS)
    (fs : gmap string fnode) (st : Session NS) :
  let st1 := _ensure_code_state empty_ns fs st in
  ∃ c ns stdout stderr exception,
    st1 = mkSession (widgets st) (Some c) (Some ns) (Some stdout) (Some stderr)
                    (Some exception) (mini_md_code st) (mini_md_last_run st) ∧
    (∀ x, mini_code_code st = Some x → c = x) ∧
    (∀ x, mini_code_ns st = Some x → ns = x) ∧
    (∀ x, mini_code_stdout st = Some x → stdout = x) ∧
    (∀ x, mini_code_stderr st = Some x → stderr = x) ∧
    (∀ x, mini_code_exception st = Some x → exception = x) ∧
    (mini_code_code st = None →
     c = Code.__init__ (PyStr (_autoload_if_needed CODE_AUTOSAVE_PATH
                                 "print('Hello from mini notebook!')" fs))) ∧
    (mini_code_ns st = None → ns = empty_ns).
Proof.
  destruct st as [w [c|] [ns|] [o|] [e|] [x|] md lr];
    cbv zeta; unfold _ensure_code_state;
    cbn [mini_code_code mini_code_ns mini_code_stdout mini_code_stderr
         mini_code_exception set_mini_code_code set_mini_code_ns
         set_mini_code_stdout set_mini_code_stderr set_mini_code_exception
         widgets mini_md_code mini_md_last_run];
    eexists _, _, _, _, _; (split; [reflexivity|]);
    repeat split; congruence.
Qed.

Lemma code_output_area_draws {NS : Type} (w : World NS) (stdout stderr exception : string) :
  mini_code_stdout (session w) = Some stdout →
  mini_code_stderr (session w) = Some stderr →
  mini_code_exception (session w) = Some exception →
  ∃ els, code_output_area w = Completed (draw els w) ∧
         (els = [info "No output yet – write some code and press **Run** or **Ctrl+Enter**."]
          ↔ stdout = "" ∧ stderr = "" ∧ exception = "").
Proof.
  intros Ho He Hx. unfold code_output_area. rewrite Ho, He, Hx.
  destruct w as [st fs scr].
  destruct (String.eqb_spec stdout "") as [->|Hso];
    destruct (String.eqb_spec stderr "") as [->|Hse];
    destruct (String.eqb_spec exception "") as [->|Hsx];
    cbn [negb]; unfold draw; cbn [session files screen];
    rewrite <- ?app_assoc; cbn [app];
    eexists; (split; [reflexivity|]); split; try tauto; try discriminate;
    intros (? & ? & ?); congruence.
Qed.

(** [show] on the editor a redraw builds: its parser is new, so what
    it returns is what a new parser makes of the output. *)
Lemma show_of_new_editor (c : Code.t) (k lang : string) (lines : Z)
    (state : gmap string PyObj) (raw : PyObj) :
  k ≠ "" →
  let ed := Editor.__init__ "" (Some c) (Some k) lang lines lines in
  let output := match state !! k with
                | Some stored => stored
                | None => raw
                end in
  Editor.show ed state raw =
    match __call__ (__init__ (Code.get_value c)) output with
    | Raise e => Raise e
    | Ok ((ev, content), p1) =>
        Ok {| Editor.code := Code.from_ui c content;
              Editor.key := k;
              Editor.lang := lang;
              Editor.min_lines := lines;
              Editor.max_lines := lines;
              Editor.event := ev;
              Editor._parser := p1 |}
    end.
Proof.
  intros Hk ed output. unfold Editor.show, Editor.get_output, ed, Editor.__init__.
  cbn [Editor.key Editor._parser Editor.code Editor.lang Editor.min_lines
       Editor.max_lines].
  rewrite (eqb_path_false k Hk). fold output.
  destruct (__call__ _ output) as [[[ev content] p1]|e]; reflexivity.
Qed.

(** [show_code_mode] once the session is filled and the output read. *)
Lemma show_code_mode_eq {NS : Type} (empty_ns : NS)
    (py_exec : PyVal → NS → ExecResult NS) (toast_works : bool)
    (raw : PyObj) (w : World NS) (st0 : Session NS) (c : Code.t)
    (ev content : PyVal) (p1 : editor_output_parser.t) :
  _ensure_code_state empty_ns (files w) (session w) = st0 →
  mini_code_code st0 = Some c →
  __call__ (__init__ (Code.get_value c))
           (match widgets st0 !! "mini_code_editor" with
            | Some stored => stored
            | None => raw
            end) = Ok ((ev, content), p1) →
  let w3 := mkWorld (set_mini_code_code (Code.from_ui c content) st0) (files w)
                    (screen w ++ [title "Mini notebook – Code cell"])%list in
  show_code_mode empty_ns py_exec toast_works raw w =
    match (if event_in_run_submit ev then _run_code py_exec toast_works w3
           else Completed w3) with
    | Aborted e w4 => Aborted e w4
    | Completed w4 => code_output_area w4
    end.
Proof.
  intros Hst Hc Hcall w3. unfold show_code_mode.
  cbn [draw with_session session files screen]. rewrite Hst, Hc.
  rewrite show_of_new_editor by discriminate. cbv zeta. rewrite Hcall.
  cbn [Editor.code Editor.event]. reflexivity.
Qed.

Lemma show_code_mode_runs {NS : Type} (empty_ns : NS)
    (py_exec : PyVal → NS → ExecResult NS) (toast_works : bool)
    (raw : PyObj) (w : World NS) (wd : gmap string PyObj) (c : Code.t) (ns0 : NS)
    (o e x : string) (md : option Code.t) (lr : option PyVal)
    (ev content : PyVal) (p1 : editor_output_parser.t) :
  _ensure_code_state empty_ns (files w) (session w)
    = mkSession wd (Some c) (Some ns0) (Some o) (Some e) (Some x) md lr →
  __call__ (__init__ (Code.get_value c))
           (match wd !! "mini_code_editor" with
            | Some stored => stored
            | None => raw
            end) = Ok ((ev, content), p1) →
  event_in_run_submit ev = true →
  let c1 := Code.from_ui c content in
  let r := py_exec (Code.get_value c1) ns0 in
  raised r ≠ RaisedBaseException →
  ∃ w1, show_code_mode empty_ns py_exec toast_works raw w = Completed w1 ∧
        session w1 = mkSession wd (Some c1) (Some (ns_after r)) (Some (out r))
                               (Some (err r)) (Some (stored_exception (raised r)))
                               md lr ∧
        files w1 = fst (_autosave toast_works CODE_AUTOSAVE_PATH
                                  (Code.get_value c1) (files w)).
Proof.
  intros Hst Hcall Hev c1 r Hr.
  rewrite (show_code_mode_eq empty_ns py_exec toast_works raw w _ c ev content p1
             Hst eq_refl Hcall).
  rewrite Hev. cbv zeta. fold c1.
  match goal with |- context [_run_code _ _ ?w3] =>
    rewrite (run_code_eq py_exec toast_works w3 c1 ns0 eq_refl eq_refl)
  end.
  cbv zeta. fold r. session_simpl.
  unfold autosave_in. cbn [files session screen].
  destruct (_autosave toast_works CODE_AUTOSAVE_PATH (Code.get_value c1) (files w))
    as [fs1 notices].
  assert (∀ w4 : World NS,
            session w4 = mkSession wd (Some c1) (Some (ns_after r)) (Some (out r))
                                   (Some (err r)) (Some (stored_exception (raised r)))
                                   md lr →
            files w4 = fs1 →
            ∃ w1, code_output_area w4 = Completed w1 ∧
                  session w1 = session w4 ∧ files w1 = fs1) as Harea.
  { intros w4 Hs Hf.
    destruct (code_output_area_draws w4 (out r) (err r) (stored_exception (raised r)))
      as (els & -> & _); try (rewrite Hs; reflexivity).
    eexists. split; [reflexivity|]. split; [reflexivity | exact Hf]. }
  destruct (raised r) eqn:Hraised; [| |congruence];
    (edestruct Harea as (w1 & -> & Hs1 & Hf1); [reflexivity | reflexivity |];
     exists w1; split; [reflexivity|]; split; [exact Hs1 | exact Hf1]).
Qed.

Lemma show_code_mode_idle {NS : Type} (empty_ns : NS)
    (py_exec : PyVal → NS → ExecResult NS) (toast_works : bool)
    (raw : PyObj) (w : World NS) (wd : gmap string PyObj) (c : Code.t) (ns0 : NS)
    (o e x : string) (md : option Code.t) (lr : option PyVal)
    (ev content : PyVal) (p1 : editor_output_parser.t) :
  _ensure_code_state empty_ns (files w) (session w)
    = mkSession wd (Some c) (Some ns0) (Some o) (Some e) (Some x) md lr →
  __call__ (__init__ (Code.get_value c))
           (match wd !! "mini_code_editor" with
            | Some stored => stored
            | None => raw
            end) = Ok ((ev, content), p1) →
  event_in_run_submit ev = false →
  ∃ w1, show_code_mode empty_ns py_exec toast_works raw w = Completed w1 ∧
        session w1 = mkSession wd (Some (Code.from_ui c content)) (Some ns0) (Some o)
                               (Some e) (Some x) md lr ∧
        files w1 = files w.
Proof.
  intros Hst Hcall Hev.
  rewrite (show_code_mode_eq empty_ns py_exec toast_works raw w _ c ev content p1
             Hst eq_refl Hcall).
  rewrite Hev. cbv zeta.
  match goal with |- context [code_output_area ?w3] =>
    destruct (code_output_area_draws w3 o e x) as (els & -> & _); try reflexivity
  end.
  eexists. split; [reflexivity|]. split; reflexivity.
Qed.

Lemma ensure_code_state_of_filled {NS : Type} (empty_ns : NS)
    (fs : gmap string fnode) (wd : gmap string PyObj) (c : Code.t) (ns0 : NS)
    (o e x : string) (md : option Code.t) (lr : option PyVal) :
  _ensure_code_state empty_ns fs
      (mkSession wd (Some c) (Some ns0) (Some o) (Some e) (Some x) md lr)
    = mkSession wd (Some c) (Some ns0) (Some o) (Some e) (Some x) md lr.
Proof. reflexivity. Qed.

Lemma event_in_run_submit_PyStr (s : string) :
  s = "run" ∨ s = "submit" → event_in_run_submit (PyStr s) = true.
Proof. intros [-> | ->]; reflexivity. Qed.

Lemma new_parser_call (v : PyVal) (d : gmap string PyVal) (i : PyVal) (s : string) :
  d !! "id" = Some i → i ≠ PyNone → d !! "type" = Some (PyStr s) → s ≠ "" →
  __call__ (__init__ v) (PyDict d)
    = Ok ((PyStr s, dict_get d "text" v),
          {| last_id := i; last_code := dict_get d "text" v |}).
Proof.
  intros Hid Hnone Hty Hs.
  rewrite (call_fresh_id (__init__ v) d i Hid Hnone (py_ne_None_r i Hnone)).
  now rewrite (dict_get_Some _ _ _ _ Hty), (truthy_PyStr s Hs).
Qed.

(** X18: the editor, and with it the parser, is built anew at every
    redraw, so the id of a click is not remembered from one redraw to
    the next.  While the session keeps a payload with an id and the
    type ["run"] or ["submit"] under the editor's key, every redraw
    runs the cell: two redraws execute it twice, the second time in
    the namespace the first run left. *)
Theorem same_payload_runs_cell_again {NS : Type} (empty_ns : NS)
    (py_exec : PyVal → NS → ExecResult NS) (toast_works : bool)
    (raw raw' : PyObj) (w : World NS) (d : gmap string PyVal)
    (i t : PyVal) (s : string) (c : Code.t) (ns0 : NS) :
  widgets (session w) !! "mini_code_editor" = Some (PyDict d) →
  d !! "id" = Some i → i ≠ PyNone →
  d !! "type" = Some (PyStr s) → s = "run" ∨ s = "submit" →
  d !! "text" = Some t →
  let st0 := _ensure_code_state empty_ns (files w) (session w) in
  mini_code_code st0 = Some c → mini_code_ns st0 = Some ns0 →
  let r1 := py_exec (Code.get_value (Code.from_ui c t)) ns0 in
  let r2 := py_exec t (ns_after r1) in
  raised r1 ≠ RaisedBaseException → raised r2 ≠ RaisedBaseException →
  ∃ w1 w2,
    show_code_mode empty_ns py_exec toast_works raw w = Completed w1 ∧
    show_code_mode empty_ns py_exec toast_works raw' w1 = Completed w2 ∧
    mini_code_ns (session w1) = Some (ns_after r1) ∧
    mini_code_stdout (session w1) = Some (out r1) ∧
    mini_code_ns (session w2) = Some (ns_after r2) ∧
    mini_code_stdout (session w2) = Some (out r2).
Proof.
  intros Hwd Hid Hnone Hty Hs Htext st0 Hc Hns r1 r2 Hr1 Hr2.
  assert (s ≠ "") as Hs' by (destruct Hs as [-> | ->]; discriminate).
  destruct (ensure_code_state_filled empty_ns (files w) (session w))
    as (c' & ns' & o & e & x & Hst & _). fold st0 in Hst.
  rewrite Hst in Hc, Hns. cbn [mini_code_code mini_code_ns] in Hc, Hns.
  injection Hc as ->. injection Hns as ->.
  pose proof (λ v, new_parser_call v d i s Hid Hnone Hty Hs') as Hcall.
  assert (∀ v, dict_get d "text" v = t) as Hget
    by (intros v; apply (dict_get_Some _ _ _ _ Htext)).
  destruct (show_code_mode_runs empty_ns py_exec toast_works raw w _ c ns0 o e x _ _
              (PyStr s) t {| last_id := i; last_code := t |} Hst)
    as (w1 & Hshow1 & Hs1 & Hf1).
  { rewrite Hwd, Hcall, Hget. reflexivity. }
  { apply (event_in_run_submit_PyStr s Hs). }
  { exact Hr1. }
  assert (Code.get_value (Code.from_ui (Code.from_ui c t) t) = t) as Hsrc2.
  { unfold Code.from_ui. destruct (Code.new_code_flag c); reflexivity. }
  destruct (show_code_mode_runs empty_ns py_exec toast_works raw' w1
              (widgets (session w))
              (Code.from_ui c t) (ns_after r1) (out r1) (err r1)
              (stored_exception (raised r1))
              (mini_md_code (session w)) (mini_md_last_run (session w))
              (PyStr s) t {| last_id := i; last_code := t |})
    as (w2 & Hshow2 & Hs2 & Hf2).
  { rewrite Hs1. apply ensure_code_state_of_filled. }
  { rewrite Hwd, Hcall, Hget. reflexivity. }
  { apply (event_in_run_submit_PyStr s Hs). }
  { rewrite Hsrc2. exact Hr2. }
  exists w1, w2. rewrite Hs1, Hs2, Hsrc2.
  repeat split; assumption.
Qed.

(** One click on Run, kept by the session over two redraws; each run
    of the cell adds one to a counter that stands for the namespace. *)
Lemma same_payload_runs_cell_again_witness :
  let py_exec (src : PyVal) (ns : nat) := mkExecResult (S ns) "1" "" NoRaise in
  let st := mkSession (<["mini_code_editor" := PyDict payload_a1]> ∅)
                      None None None None None None None in
  ∃ w1 w2,
    show_code_mode 0%nat py_exec true (PyDict payload_a1) (mkWorld st ∅ [])
      = Completed w1 ∧
    show_code_mode 0%nat py_exec true (PyDict payload_a1) w1 = Completed w2 ∧
    mini_code_ns (session w1) = Some 1%nat ∧
    mini_code_stdout (session w1) = Some "1" ∧
    mini_code_ns (session w2) = Some 2%nat ∧
    mini_code_stdout (session w2) = Some "1".
Proof.
  refine (same_payload_runs_cell_again 0%nat
            (λ (src : PyVal) (ns : nat), mkExecResult (S ns) "1" "" NoRaise) true
            (PyDict payload_a1) (PyDict payload_a1)
            (mkWorld (mkSession (<["mini_code_editor" := PyDict payload_a1]> ∅)
                                None None None None None None None) ∅ [])
            payload_a1 (PyStr "a1") (PyStr "print(1)") "run"
            (Code.__init__ (PyStr "print('Hello from mini notebook!')")) 0%nat
            _ _ _ _ _ _ _ _ _ _).
  - reflexivity.
  - reflexivity.
  - discriminate.
  - reflexivity.
  - left. reflexivity.
  - reflexivity.
  - reflexivity.
  - reflexivity.
  - discriminate.
  - discriminate.
Defined.

(** X19: only ["run"] and ["submit"] execute the cell.  When a new
    parser returns any other event for the output of a redraw (no
    output, a payload without type, another type), the redraw
    completes, takes the text into the [Code], and leaves the
    namespace, the stored outputs and the files as they were; [exec]
    has no part in the result. *)
Theorem other_events_run_nothing {NS : Type} (empty_ns : NS)
    (py_exec py_exec' : PyVal → NS → ExecResult NS) (toast_works : bool)
    (raw : PyObj) (w : World NS) (c : Code.t)
    (ev content : PyVal) (p1 : editor_output_parser.t) :
  let st0 := _ensure_code_state empty_ns (files w) (session w) in
  mini_code_code st0 = Some c →
  __call__ (__init__ (Code.get_value c))
           (match widgets (session w) !! "mini_code_editor" with
            | Some stored => stored
            | None => raw
            end) = Ok ((ev, content), p1) →
  event_in_run_submit ev = false →
  ∃ w1, show_code_mode empty_ns py_exec toast_works raw w = Completed w1 ∧
        show_code_mode empty_ns py_exec' toast_works raw w = Completed w1 ∧
        session w1 = set_mini_code_code (Code.from_ui c content) st0 ∧
        files w1 = files w.
Proof.
  intros st0 Hc Hcall Hev.
  destruct (ensure_code_state_filled empty_ns (files w) (session w))
    as (c' & ns' & o & e & x & Hst & _). fold st0 in Hst.
  rewrite Hst in Hc. cbn [mini_code_code] in Hc. injection Hc as ->.
  pose proof (show_code_mode_eq empty_ns py_exec toast_works raw w _ c ev content p1
                Hst eq_refl) as Heq.
  pose proof (show_code_mode_eq empty_ns py_exec' toast_works raw w _ c ev content p1
                Hst eq_refl) as Heq'.
  cbn [widgets] in Heq, Heq'. specialize (Heq Hcall). specialize (Heq' Hcall).
  rewrite Hev in Heq, Heq'. cbv zeta in Heq, Heq'.
  rewrite Heq, Heq'.
  match goal with |- context [code_output_area ?w3] =>
    destruct (code_output_area_draws w3 o e x) as (els & -> & _); try reflexivity
  end.
  eexists. repeat split; try reflexivity.
  rewrite Hst. reflexivity.
Qed.

(** A first redraw of a new session, before the widget reports. *)
Lemma other_events_run_nothing_witness :
  let py_exec (src : PyVal) (ns : nat) := mkExecResult (S ns) "1" "" NoRaise in
  let py_exec' (src : PyVal) (ns : nat) := mkExecResult ns "" "" RaisedBaseException in
  let w := mkWorld (mkSession ∅ None None None None None None None) ∅ [] in
  let c := Code.__init__ (PyStr "print('Hello from mini notebook!')") in
  ∃ w1, show_code_mode 0%nat py_exec true (PyScalar PyNone) w = Completed w1 ∧
        show_code_mode 0%nat py_exec' true (PyScalar PyNone) w = Completed w1 ∧
        session w1 = set_mini_code_code (Code.from_ui c (Code.get_value c))
                       (_ensure_code_state 0%nat (files w) (session w)) ∧
        files w1 = files w.
Proof.
  refine (other_events_run_nothing 0%nat
            (λ (src : PyVal) (ns : nat), mkExecResult (S ns) "1" "" NoRaise)
            (λ (src : PyVal) (ns : nat), mkExecResult ns "" "" RaisedBaseException)
            true (PyScalar PyNone)
            (mkWorld (mkSession ∅ None None None None None None None) ∅ [])
            (Code.__init__ (PyStr "print('Hello from mini notebook!')"))
            PyNone (PyStr "print('Hello from mini notebook!')")
            (__init__ (PyStr "print('Hello from mini notebook!')")) _ _ _).
  - reflexivity.
  - reflexivity.
  - reflexivity.
Defined.



(** ** One redraw of the markdown notepad *)

Lemma ensure_markdown_state_filled {NS : Type} (fs : gmap string fnode)
    (st : Session NS) :
  ∃ c lr,
    _ensure_markdown_state fs st
      = mkSession (widgets st) (mini_code_code st) (mini_code_ns st)
                  (mini_code_stdout st) (mini_code_stderr st)
                  (mini_code_exception st) (Some c) (Some lr) ∧
    (∀ x, mini_md_code st = Some x → c = x) ∧
    (∀ x, mini_md_last_run st = Some x → lr = x) ∧
    (mini_md_last_run st = None → lr = Code.get_value c).
Proof.
  destruct st as [wd cc ns o e x [c|] [lr|]];
    unfold _ensure_markdown_state; session_simpl;
    eexists _, _; (split; [reflexivity|]); repeat split; congruence.
Qed.

(** The page the preview column adds for the text [shown]. *)
Lemma markdown_preview_draws {NS : Type} (_md_to_html : option (PyVal → string))
    (w : World NS) (shown : PyVal) :
  mini_md_last_run (session w) = Some shown →
  ∃ els, markdown_preview _md_to_html w = Completed (draw els w) ∧
         (∀ convert, _md_to_html = Some convert →
                     els = [html_box 600 (convert shown) 640]) ∧
         (_md_to_html = None →
          ∃ notice, els = [warning notice; markdown shown]).
Proof.
  intros Hlr. unfold markdown_preview. rewrite Hlr.
  destruct _md_to_html as [convert|]; eexists; (split; [reflexivity|]); split;
    try discriminate; try (intros ? [= <-]; reflexivity).
  intros _. eexists. reflexivity.
Qed.

Lemma show_markdown_mode_eq {NS : Type} (toast_works : bool)
    (_md_to_html : option (PyVal → string)) (raw : PyObj) (w : World NS)
    (st0 : Session NS) (c : Code.t) (ev content : PyVal)
    (p1 : editor_output_parser.t) :
  _ensure_markdown_state (files w) (session w) = st0 →
  mini_md_code st0 = Some c →
  __call__ (__init__ (Code.get_value c))
           (match widgets st0 !! "mini_markdown_editor" with
            | Some stored => stored
            | None => raw
            end) = Ok ((ev, content), p1) →
  let c1 := Code.from_ui c content in
  let w3 := mkWorld (set_mini_md_code c1 st0) (files w)
                    (screen w ++ [title "Mini notebook – Markdown notepad"])%list in
  let w4 :=
    if event_in_run_submit ev then
      autosave_in toast_works MARKDOWN_AUTOSAVE_PATH (Code.get_value c1)
        (with_session (set_mini_md_last_run (Code.get_value c1) (session w3)) w3)
    else w3 in
  show_markdown_mode toast_works _md_to_html raw w =
    markdown_preview _md_to_html
      (draw [caption "Press **Run** or **Ctrl+Enter** to update the preview."] w4).
Proof.
  intros Hst Hc Hcall c1 w3 w4. unfold show_markdown_mode.
  cbn [draw with_session session files screen]. rewrite Hst, Hc.
  rewrite show_of_new_editor by discriminate. cbv zeta. rewrite Hcall.
  cbn [Editor.code Editor.event]. reflexivity.
Qed.

(** X21: the preview follows the editor only on Run.  A redraw of the
    markdown notepad takes the editor's text into the [Code]; the text
    of the preview and the autosave file change only when the event is
    ["run"] or ["submit"], and then to the text of the [Code]; the
    element drawn last is the box of 600 pixels that holds the preview
    text converted, in a frame of 640. *)
Theorem preview_changes_only_on_run {NS : Type} (toast_works : bool)
    (convert : PyVal → string) (raw : PyObj) (w : World NS)
    (c : Code.t) (lr ev content : PyVal) (p1 : editor_output_parser.t) :
  let st0 := _ensure_markdown_state (files w) (session w) in
  mini_md_code st0 = Some c → mini_md_last_run st0 = Some lr →
  __call__ (__init__ (Code.get_value c))
           (match widgets (session w) !! "mini_markdown_editor" with
            | Some stored => stored
            | None => raw
            end) = Ok ((ev, content), p1) →
  let c1 := Code.from_ui c content in
  let shown := if event_in_run_submit ev then Code.get_value c1 else lr in
  ∃ w1 before,
    show_markdown_mode toast_works (Some convert) raw w = Completed w1 ∧
    mini_md_code (session w1) = Some c1 ∧
    mini_md_last_run (session w1) = Some shown ∧
    files w1 = (if event_in_run_submit ev
                then fst (_autosave toast_works MARKDOWN_AUTOSAVE_PATH
                                    (Code.get_value c1) (files w))
                else files w) ∧
    screen w1 = (before ++ [html_box 600 (convert shown) 640])%list.
Proof.
  intros st0 Hc Hlr Hcall c1 shown.
  destruct (ensure_markdown_state_filled (files w) (session w))
    as (c' & lr' & Hst & _). fold st0 in Hst.
  rewrite Hst in Hc, Hlr. cbn [mini_md_code mini_md_last_run] in Hc, Hlr.
  injection Hc as ->. injection Hlr as ->.
  pose proof (show_markdown_mode_eq toast_works (Some convert) raw w _ c ev content p1
                Hst eq_refl) as Heq.
  cbn [widgets] in Heq. specialize (Heq Hcall). cbv zeta in Heq. fold c1 in Heq.
  rewrite Heq. unfold shown.
  destruct (event_in_run_submit ev).
  - unfold autosave_in. session_simpl.
    destruct (_autosave toast_works MARKDOWN_AUTOSAVE_PATH (Code.get_value c1) (files w))
      as [fs1 notices].
    match goal with |- context [markdown_preview _ ?w5] =>
      destruct (markdown_preview_draws (Some convert) w5 (Code.get_value c1))
        as (els & -> & Hels & _); [reflexivity|]
    end.
    rewrite (Hels convert eq_refl). session_simpl.
    eexists _, _. repeat split; reflexivity.
  - session_simpl.
    match goal with |- context [markdown_preview _ ?w5] =>
      destruct (markdown_preview_draws (Some convert) w5 lr)
        as (els & -> & Hels & _); [reflexivity|]
    end.
    rewrite (Hels convert eq_refl). session_simpl.
    eexists _, _. repeat split; reflexivity.
Qed.

(** Text typed into the notepad and reported without a click: the
    [Code] has it, the preview still shows the old text. *)
Lemma preview_changes_only_on_run_witness :
  let typed : gmap string PyVal := <["type" := PyStr ""]> payload_a1 in
  let st := mkSession (NS := nat) (<["mini_markdown_editor" := PyDict typed]> ∅)
                      None None None None None
                      (Some (Code.__init__ (PyStr "# old"))) (Some (PyStr "# old")) in
  let convert (text : PyVal) := "<h1>old</h1>" in
  let c1 := Code.from_ui (Code.__init__ (PyStr "# old")) (PyStr "print(1)") in
  let shown := if event_in_run_submit PyNone then Code.get_value c1 else PyStr "# old" in
  ∃ w1 before,
    show_markdown_mode true (Some convert) (PyScalar PyNone) (mkWorld st ∅ [])
      = Completed w1 ∧
    mini_md_code (session w1) = Some c1 ∧
    mini_md_last_run (session w1) = Some shown ∧
    files w1 = (if event_in_run_submit PyNone
                then fst (_autosave true MARKDOWN_AUTOSAVE_PATH (Code.get_value c1) ∅)
                else ∅) ∧
    screen w1 = (before ++ [html_box 600 (convert shown) 640])%list.
Proof.
  refine (preview_changes_only_on_run true (λ _ : PyVal, "<h1>old</h1>")
            (PyScalar PyNone)
            (mkWorld
               (mkSession (NS := nat)
                  (<["mini_markdown_editor" := PyDict (<["type" := PyStr ""]> payload_a1)]> ∅)
                  None None None None None
                  (Some (Code.__init__ (PyStr "# old"))) (Some (PyStr "# old"))) ∅ [])
            (Code.__init__ (PyStr "# old")) (PyStr "# old") PyNone (PyStr "print(1)")
            {| last_id := PyStr "a1"; last_code := PyStr "print(1)" |} _ _ _).
  - reflexivity.
  - reflexivity.
  - reflexivity.
Defined.

(** ** The two modes side by side *)



